(** * Reasoning engines: a shallow embedding of [engine.py]

    The four components of [engine.py] ([confidence_score_source],
    [decision_rule_engine], [evaluate_consensus],
    [hybrid_reasoning_engine]) and their loader [read_input_file] are
    embedded as Rocq functions over a model of the Python values that
    [json.load] produces.  Python exceptions are the [Raise] outcomes of a
    small error monad; Python floats are IEEE-754 binary64 numbers in the
    [SpecFloat] representation of the Standard Library, with its
    operations at precision 53 and maximal exponent 1024. *)

From Stdlib Require Import ZArith List String Ascii Bool Lia.
From Stdlib Require Import Floats.
Import ListNotations.

#[local] Set Warnings "-inexact-float,-register-all".
#[local] Open Scope string_scope.
#[local] Open Scope Z_scope.

(** ** Python values, exceptions and outcomes *)

Module Py.

(** The exceptions the modelled code can meet. [OtherError] stands for
    what the operating system may report on [open] besides a missing
    file. *)
Inductive exn : Type :=
| TypeError
| AttributeError
| KeyError
| OverflowError
| ZeroDivisionError
| FileNotFoundError
| JSONDecodeError
| OtherError (msg : string).

(** A computation returns a value or raises. *)
Inductive result (A : Type) : Type :=
| Ret (a : A)
| Raise (e : exn).

Arguments Ret {A} a.
Arguments Raise {A} e.

Definition bind {A B : Type} (c : result A) (k : A -> result B) : result B :=
  match c with
  | Ret a => k a
  | Raise e => Raise e
  end.

Notation "x <- c ;; k" := (bind c (fun x => k))
  (at level 61, c at next level, right associativity).

(** binary64 numbers. *)
Definition float : Type := spec_float.

(** The values [json.load] builds: [None], booleans, unbounded integers,
    floats, text, lists and string-keyed dictionaries (in insertion
    order). *)
Inductive pyval : Type :=
| PNone
| PBool (b : bool)
| PInt (n : Z)
| PFloat (x : float)
| PStr (s : string)
| PList (l : list pyval)
| PDict (d : list (string * pyval)).

(** *** Text *)

(** [str.isascii]: every character of the text has a code below 128. *)
Definition isascii_char (c : ascii) : bool :=
  match c with Ascii _ _ _ _ _ _ _ b7 => negb b7 end.

Fixpoint isascii (s : string) : bool :=
  match s with
  | EmptyString => true
  | String c s' => isascii_char c && isascii s'
  end.

(** [str.lower] on ASCII text: [A]..[Z] go to [a]..[z], every other
    character is kept.  Outside ASCII, [str.lower] follows the Unicode
    tables of the interpreter, which this model does not carry: there
    [lower] keeps the character.  A property whose conclusion shows the
    lowercased text, or matches one given text in another, is therefore
    stated for texts that satisfy [isascii]. *)
Definition lower_ascii (c : ascii) : ascii :=
  let n := nat_of_ascii c in
  if (Nat.leb 65 n && Nat.leb n 90)%bool then ascii_of_nat (n + 32) else c.

Fixpoint lower (s : string) : string :=
  match s with
  | EmptyString => EmptyString
  | String c s' => String (lower_ascii c) (lower s')
  end.

(** [needle in hay] on text: [needle] occurs as a contiguous substring. *)
Fixpoint str_in (needle hay : string) : bool :=
  match hay with
  | EmptyString => String.prefix needle EmptyString
  | String _ hay' => String.prefix needle hay || str_in needle hay'
  end.

(** The characters of a text, each as a text of length one (iteration
    over a [str]). *)
Fixpoint chars (s : string) : list pyval :=
  match s with
  | EmptyString => []
  | String c s' => PStr (String c EmptyString) :: chars s'
  end.

(** *** Dictionaries *)

Fixpoint assoc {A : Type} (k : string) (d : list (string * A)) : option A :=
  match d with
  | [] => None
  | (k', v) :: d' => if String.eqb k k' then Some v else assoc k d'
  end.

(** *** binary64 arithmetic *)

Definition fadd : float -> float -> float := SFadd prec emax.
Definition fsub : float -> float -> float := SFsub prec emax.
Definition fmul : float -> float -> float := SFmul prec emax.
Definition fdiv : float -> float -> float := SFdiv prec emax.
Definition flt : float -> float -> bool := SFltb.
Definition fle : float -> float -> bool := SFleb.

Definition is_nan (x : float) : bool :=
  match x with S754_nan => true | _ => false end.

Definition is_zero (x : float) : bool :=
  match x with S754_zero _ => true | _ => false end.

(** [float(n)] for an integer [n]: the nearest binary64 number, ties to
    even; an integer beyond the range raises. *)
Definition int_to_float (n : Z) : result float :=
  match binary_normalize prec emax n 0 false with
  | S754_infinity _ => Raise OverflowError
  | x => Ret x
  end.

(** A small integer as a float: [binary_normalize] without the range
    check of [int_to_float]. *)
Definition raw_float (n : Z) : float := binary_normalize prec emax n 0 false.

(** An integer as an exact (unrounded) mantissa with exponent 0. *)
Definition raw_int (n : Z) : float :=
  match n with
  | Z0 => S754_zero false
  | Zpos p => S754_finite false p 0
  | Zneg p => S754_finite true p 0
  end.

(** [a / b] on integers: the correctly rounded quotient. Python raises on
    a zero divisor and when the rounded quotient is out of range. *)
Definition int_true_div (a b : Z) : result float :=
  if b =? 0 then Raise ZeroDivisionError
  else match a with
       | Z0 => Ret (S754_zero (b <? 0))
       | _ => match SFdiv prec emax (raw_int a) (raw_int b) with
              | S754_infinity _ => Raise OverflowError
              | x => Ret x
              end
       end.

(** The exact order between a float and an integer ([None] for NaN). *)
Definition float_compare_int (x : float) (n : Z) : option comparison :=
  match x with
  | S754_nan => None
  | S754_infinity s => Some (if s then Lt else Gt)
  | S754_zero _ => Some (0 ?= n)
  | S754_finite s m e =>
      let v := if s then Zneg m else Zpos m in
      if 0 <=? e then Some (v * 2 ^ e ?= n)
      else Some (v ?= n * 2 ^ (- e))
  end.

(** The numeric reading of a value: [bool] is a subtype of [int]. *)
Inductive num : Type :=
| NInt (n : Z)
| NFloat (x : float).

Definition as_num (v : pyval) : option num :=
  match v with
  | PBool b => Some (NInt (if b then 1 else 0))
  | PInt n => Some (NInt n)
  | PFloat x => Some (NFloat x)
  | _ => None
  end.

Definition num_to_float (a : num) : result float :=
  match a with
  | NInt n => int_to_float n
  | NFloat x => Ret x
  end.

(** A binary arithmetic operator on numbers: exact on two integers, in
    binary64 as soon as one operand is a float. *)
Definition arith (fi : Z -> Z -> result pyval) (ff : float -> float -> result pyval)
  (a b : pyval) : result pyval :=
  match as_num a, as_num b with
  | Some (NInt m), Some (NInt n) => fi m n
  | Some x, Some y =>
      fx <- num_to_float x ;;
      fy <- num_to_float y ;;
      ff fx fy
  | _, _ => Raise TypeError
  end.

Definition py_add : pyval -> pyval -> result pyval :=
  arith (fun m n => Ret (PInt (m + n))) (fun x y => Ret (PFloat (fadd x y))).

Definition py_sub : pyval -> pyval -> result pyval :=
  arith (fun m n => Ret (PInt (m - n))) (fun x y => Ret (PFloat (fsub x y))).

Definition py_mul : pyval -> pyval -> result pyval :=
  arith (fun m n => Ret (PInt (m * n))) (fun x y => Ret (PFloat (fmul x y))).

Definition py_truediv : pyval -> pyval -> result pyval :=
  arith (fun m n => x <- int_true_div m n ;; Ret (PFloat x))
        (fun x y => if is_zero y then Raise ZeroDivisionError
                    else Ret (PFloat (fdiv x y))).

(** [a < b] on numbers; integers and floats are compared exactly. *)
Definition py_lt (a b : pyval) : result bool :=
  match as_num a, as_num b with
  | Some (NInt m), Some (NInt n) => Ret (m <? n)
  | Some (NFloat x), Some (NFloat y) => Ret (flt x y)
  | Some (NFloat x), Some (NInt n) =>
      Ret (match float_compare_int x n with Some Lt => true | _ => false end)
  | Some (NInt m), Some (NFloat y) =>
      Ret (match float_compare_int y m with Some Gt => true | _ => false end)
  | _, _ => Raise TypeError
  end.

Definition py_gt (a b : pyval) : result bool := py_lt b a.

(** [a <= b] on numbers. *)
Definition py_le (a b : pyval) : result bool :=
  match as_num a, as_num b with
  | Some (NInt m), Some (NInt n) => Ret (m <=? n)
  | Some (NFloat x), Some (NFloat y) => Ret (fle x y)
  | Some (NFloat x), Some (NInt n) =>
      Ret (match float_compare_int x n with Some (Lt | Eq) => true | _ => false end)
  | Some (NInt m), Some (NFloat y) =>
      Ret (match float_compare_int y m with Some (Gt | Eq) => true | _ => false end)
  | _, _ => Raise TypeError
  end.

Definition py_ge (a b : pyval) : result bool := py_le b a.

(** The builtins [max(a, b)] and [min(a, b)]: the first argument is kept
    unless the second is strictly greater (resp. smaller). *)
Definition py_max (a b : pyval) : result pyval :=
  g <- py_gt b a ;; Ret (if g then b else a).

Definition py_min (a b : pyval) : result pyval :=
  l <- py_lt b a ;; Ret (if l then b else a).

(** *** Truth value, attribute access, membership *)

(** [bool(v)], as used by [not v] and by [if v]. *)
Definition truthy (v : pyval) : bool :=
  match v with
  | PNone => false
  | PBool b => b
  | PInt n => negb (n =? 0)
  | PFloat x => negb (is_zero x)
  | PStr s => negb (String.eqb s "")
  | PList l => match l with [] => false | _ => true end
  | PDict d => match d with [] => false | _ => true end
  end.

(** [v.get(key, default)]: only dictionaries have the method. *)
Definition py_get (v : pyval) (key : string) (default : pyval) : result pyval :=
  match v with
  | PDict d => Ret (match assoc key d with Some x => x | None => default end)
  | _ => Raise AttributeError
  end.

(** [table.get(k, default)] for a literal table with text keys and an
    arbitrary value [k]: lists and dictionaries are unhashable, any other
    value that is not one of the keys gets the default. *)
Definition table_get {A : Type} (table : list (string * A)) (k : pyval) (default : A)
  : result A :=
  match k with
  | PStr s => Ret (match assoc s table with Some x => x | None => default end)
  | PList _ | PDict _ => Raise TypeError
  | _ => Ret default
  end.

(** [v.lower()]: only text has the method. *)
Definition py_lower (v : pyval) : result string :=
  match v with
  | PStr s => Ret (lower s)
  | _ => Raise AttributeError
  end.

(** [v.copy()]: dictionaries and lists have the method. Nothing in the
    modelled code mutates the copy, so the copy is the value itself. *)
Definition py_copy (v : pyval) : result pyval :=
  match v with
  | PDict _ | PList _ => Ret v
  | _ => Raise AttributeError
  end.

(** [for x in v]: the items iteration yields. *)
Definition py_iter (v : pyval) : result (list pyval) :=
  match v with
  | PList l => Ret l
  | PStr s => Ret (chars s)
  | PDict d => Ret (map (fun kv => PStr (fst kv)) d)
  | _ => Raise TypeError
  end.

(** [key in v] for a text [key]. *)
Definition py_contains (key : string) (v : pyval) : result bool :=
  match v with
  | PDict d => Ret (match assoc key d with Some _ => true | None => false end)
  | PList l =>
      Ret (existsb (fun x => match x with PStr s => String.eqb key s | _ => false end) l)
  | PStr s => Ret (str_in key s)
  | _ => Raise TypeError
  end.

(** [v[key]] for a text [key]. *)
Definition py_getitem (v : pyval) (key : string) : result pyval :=
  match v with
  | PDict d => match assoc key d with Some x => Ret x | None => Raise KeyError end
  | _ => Raise TypeError
  end.

(** [v[0]]. A dictionary decoded from JSON has text keys only, so the
    integer key is missing. *)
Definition py_first (v : pyval) : result pyval :=
  match v with
  | PList (x :: _) => Ret x
  | PStr (String c _) => Ret (PStr (String c EmptyString))
  | PList [] | PStr EmptyString => Raise (OtherError "IndexError")
  | PDict _ => Raise KeyError
  | _ => Raise TypeError
  end.

(** [isinstance(v, float)]. *)
Definition is_float (v : pyval) : bool :=
  match v with PFloat _ => true | _ => false end.

(** [a == b] where [b] is a text literal. *)
Definition eq_str (a : pyval) (b : string) : bool :=
  match a with PStr s => String.eqb s b | _ => false end.

End Py.

(** ** The components of [engine.py] *)

Module Engine.
Import Py.

(** The float literals of the source, as the binary64 numbers nearest to
    the decimals. *)
Definition f0_0 : float := Eval vm_compute in Prim2SF 0.0%float.
Definition f1_0 : float := Eval vm_compute in Prim2SF 1.0%float.
Definition f0_2 : float := Eval vm_compute in Prim2SF 0.2%float.
Definition f0_3 : float := Eval vm_compute in Prim2SF 0.3%float.
Definition f0_4 : float := Eval vm_compute in Prim2SF 0.4%float.
Definition f0_5 : float := Eval vm_compute in Prim2SF 0.5%float.
Definition f0_6 : float := Eval vm_compute in Prim2SF 0.6%float.
Definition f0_7 : float := Eval vm_compute in Prim2SF 0.7%float.
Definition f0_8 : float := Eval vm_compute in Prim2SF 0.8%float.
Definition f0_9 : float := Eval vm_compute in Prim2SF 0.9%float.
Definition f0_93 : float := Eval vm_compute in Prim2SF 0.93%float.

(** What lies outside the program: what [open] followed by [json.load]
    gives for a path or for a file descriptor (the parsed document, or
    the exception raised), and [str()] on values that are not text. *)
Record world : Type := {
  open_path : string -> result pyval;
  open_fd : Z -> result pyval;
  str_of : pyval -> string
}.

(** [open(file_path, 'r')] then [json.load]: [open] takes a path or a
    file descriptor and rejects any other object with [TypeError]. *)
Definition open_and_load (w : world) (file_path : pyval) : result pyval :=
  match file_path with
  | PStr p => open_path w p
  | PInt n => open_fd w n
  | PBool b => open_fd w (if b then 1 else 0)
  | _ => Raise TypeError
  end.

(** [read_input_file]: the two handled exceptions become error records,
    anything else goes through. *)
Definition read_input_file (w : world) (file_path : pyval) : result pyval :=
  match open_and_load w file_path with
  | Raise FileNotFoundError => Ret (PDict [("error", PStr "File not found")])
  | Raise JSONDecodeError => Ret (PDict [("error", PStr "Invalid JSON format")])
  | r => r
  end.

(** *** Component 1: confidence score of a source *)

Definition weights_source_type : float := f0_4.
Definition weights_recency : float := f0_3.
Definition weights_authority : float := f0_3.

Definition source_types : list (string * float) :=
  [("primary", f0_9); ("secondary", f0_6); ("opinion", f0_3)].

Definition authorities : list (string * float) :=
  [("academic", f0_9); ("government", f0_8); ("news", f0_5); ("blog", f0_2)].

(** The year the source takes as the current one. *)
Definition current_year : Z := 2025.

(** Lines 41-42: [years_old] and the recency score. *)
Definition years_old (source_data : pyval) : result pyval :=
  year <- py_get source_data "year" (PInt current_year) ;;
  py_sub (PInt current_year) year.

Definition recency_score (source_data : pyval) : result pyval :=
  yo <- years_old source_data ;;
  q <- py_truediv yo (PInt 5) ;;
  d <- py_sub (PInt 1) q ;;
  py_max (PInt 0) d.

(** Lines 34-47: the weighted sum before clamping. *)
Definition weighted_sum (source_data : pyval) : result pyval :=
  let score := PFloat f0_0 in
  ty <- py_get source_data "type" (PStr "opinion") ;;
  ts <- table_get source_types ty f0_3 ;;
  t1 <- py_mul (PFloat weights_source_type) (PFloat ts) ;;
  score <- py_add score t1 ;;
  rs <- recency_score source_data ;;
  t2 <- py_mul (PFloat weights_recency) rs ;;
  score <- py_add score t2 ;;
  au <- py_get source_data "authority" (PStr "blog") ;;
  aus <- table_get authorities au f0_2 ;;
  t3 <- py_mul (PFloat weights_authority) (PFloat aus) ;;
  py_add score t3.

(** Lines 28-49: the score of a non-empty source description. *)
Definition score_source (source_data : pyval) : result pyval :=
  score <- weighted_sum source_data ;;
  m <- py_max score (PFloat f0_0) ;;
  py_min m (PFloat f1_0).

Definition confidence_score_source (w : world) (file_path : pyval) : result pyval :=
  data <- read_input_file w file_path ;;
  err <- py_contains "error" data ;;
  if err then py_getitem data "error"
  else
    cs <- py_get data "confidence_score" (PDict []) ;;
    source_data <- py_get cs "source" (PDict []) ;;
    if negb (truthy source_data) then Ret (PStr "No source data provided")
    else score_source source_data.

(** *** Component 2: analysis depth of a query *)

Definition technical_terms : list string :=
  ["quantum"; "tariff"; "algorithm"; "philosophy"].

Definition domains : list (string * Z) :=
  [("science", 2); ("economics", 2); ("history", 1); ("general", 0)].

Definition urgency_modifier : list (string * Z) :=
  [("high", -1); ("normal", 0); ("low", 1)].

Definition in_terms (s : string) (terms : list string) : bool :=
  existsb (String.eqb s) terms.

(** [sum(1 for kw in keywords if kw.lower() in technical_terms)]. *)
Fixpoint count_technical (keywords : list pyval) : result Z :=
  match keywords with
  | [] => Ret 0
  | kw :: rest =>
      l <- py_lower kw ;;
      n <- count_technical rest ;;
      Ret ((if in_terms l technical_terms then 1 else 0) + n)
  end.

(** Lines 66-80. *)
Definition complexity_score (query_metadata : pyval) : result Z :=
  let score := 0 in
  keywords <- py_get query_metadata "keywords" (PList []) ;;
  kws <- py_iter keywords ;;
  n <- count_technical kws ;;
  let score := score + n in
  dom <- py_get query_metadata "domain" (PStr "general") ;;
  dw <- table_get domains dom 0 ;;
  let score := score + dw in
  urgency <- py_get query_metadata "urgency" (PStr "normal") ;;
  um <- table_get urgency_modifier urgency 0 ;;
  Ret (score + um).

(** Lines 83-88. *)
Definition decision_rules (score : Z) : string :=
  if score <=? 1 then "light"
  else if score <=? 3 then "moderate"
  else "deep".

Definition decision_rule_engine (w : world) (file_path : pyval) : result pyval :=
  data <- read_input_file w file_path ;;
  err <- py_contains "error" data ;;
  if err then py_getitem data "error"
  else
    dr <- py_get data "decision_rule" (PDict []) ;;
    query_metadata <- py_get dr "query" (PDict []) ;;
    if negb (truthy query_metadata) then Ret (PStr "No query data provided")
    else
      score <- complexity_score query_metadata ;;
      Ret (PStr (decision_rules score)).

(** *** Component 3: consensus *)

(** The record the loop of lines 110-114 hands to the scorer in the place
    of a file path. *)
Definition scorer_argument (temp_source : pyval) : pyval :=
  PDict [("confidence_score", PDict [("source", temp_source)])].

(** [isinstance(score, float) and score >= 0.7]. *)
Definition high_confidence (score : pyval) : result bool :=
  if is_float score then py_ge score (PFloat f0_7) else Ret false.

(** Lines 109-114. *)
Fixpoint high_conf_sources (w : world) (sources : list pyval) : result (list pyval) :=
  match sources with
  | [] => Ret []
  | source :: rest =>
      temp_source <- py_copy source ;;
      score <- confidence_score_source w (scorer_argument temp_source) ;;
      keep <- high_confidence score ;;
      kept <- high_conf_sources w rest ;;
      Ret (if keep then source :: kept else kept)
  end.

(** One turn of the loop of lines 122-127 on the pair
    [(support_count, oppose_count)]. *)
Definition tally_step (claim : pyval) (counts : Z * Z) (source : pyval)
  : result (Z * Z) :=
  c <- py_get source "content" (PStr "") ;;
  content <- py_lower c ;;
  cl <- py_lower claim ;;
  if str_in cl content then Ret (fst counts + 1, snd counts)
  else
    cl' <- py_lower claim ;;
    if str_in ("not " ++ cl') content then Ret (fst counts, snd counts + 1)
    else Ret counts.

Fixpoint tally (claim : pyval) (counts : Z * Z) (sources : list pyval)
  : result (Z * Z) :=
  match sources with
  | [] => Ret counts
  | source :: rest =>
      counts' <- tally_step claim counts source ;;
      tally claim counts' rest
  end.

(** Lines 129-138. *)
Definition verdict (support_count oppose_count : Z) : result pyval :=
  let total := support_count + oppose_count in
  if total =? 0 then Ret (PStr "no_consensus")
  else
    support_ratio <- py_truediv (PInt support_count) (PInt total) ;;
    hi <- py_ge support_ratio (PFloat f0_8) ;;
    if hi then Ret (PStr "supported")
    else
      lo <- py_le support_ratio (PFloat f0_2) ;;
      if lo then Ret (PStr "disputed") else Ret (PStr "no_consensus").

(** Lines 116-138, from the retained sources on. *)
Definition consensus_of (claim : pyval) (high_conf : list pyval) : result pyval :=
  match high_conf with
  | [] => Ret (PStr "no_consensus")
  | _ =>
      counts <- tally claim (0, 0) high_conf ;;
      verdict (fst counts) (snd counts)
  end.

Definition evaluate_consensus (w : world) (file_path : pyval) : result pyval :=
  data <- read_input_file w file_path ;;
  err <- py_contains "error" data ;;
  if err then py_getitem data "error"
  else
    consensus_data <- py_get data "consensus_eval" (PDict []) ;;
    claim <- py_get consensus_data "claim" (PStr "") ;;
    sources <- py_get consensus_data "sources" (PList []) ;;
    if (negb (truthy claim) || negb (truthy sources))%bool
    then Ret (PStr "No claim or sources provided")
    else
      items <- py_iter sources ;;
      high_conf <- high_conf_sources w items ;;
      consensus_of claim high_conf.

(** *** Component 4: hybrid reasoning *)

Definition first_principles : list (string * string) :=
  [("economics", "Supply and demand govern prices.");
   ("physics", "Energy is conserved.")].

(** [[d.get('observation', '') for d in data_points]]. *)
Fixpoint observations_of (data_points : list pyval) : result (list pyval) :=
  match data_points with
  | [] => Ret []
  | d :: rest =>
      o <- py_get d "observation" (PStr "") ;;
      os <- observations_of rest ;;
      Ret (o :: os)
  end.

(** [sum(1 for obs in observations if 'increase' in obs.lower())]. *)
Fixpoint positive_outcomes (observations : list pyval) : result Z :=
  match observations with
  | [] => Ret 0
  | obs :: rest =>
      l <- py_lower obs ;;
      n <- positive_outcomes rest ;;
      Ret ((if str_in "increase" l then 1 else 0) + n)
  end.

(** Line 174. *)
Definition trend_of (positive total : Z) : result string :=
  frac <- py_truediv (PInt positive) (PInt total) ;;
  g <- py_gt frac (PFloat f0_5) ;;
  Ret (if g then "likely increases" else "may not increase").

(** [f"{v}"]: a text is inserted as it is. *)
Definition format (w : world) (v : pyval) : string :=
  match v with
  | PStr s => s
  | _ => str_of w v
  end.

(** Line 163. *)
Definition domain_of (data_points : pyval) : result pyval :=
  if truthy data_points then
    d0 <- py_first data_points ;;
    py_get d0 "domain" (PStr "general")
  else Ret (PStr "general").

(** Lines 177-180. *)
Definition conclude (w : world) (domain problem : pyval) (base_principle trend : string)
  : result pyval :=
  let inconclusive :=
    Ret (PStr (base_principle ++ " Data analysis inconclusive for "
               ++ format w problem ++ ".")) in
  if eq_str domain "economics" then
    pl <- py_lower problem ;;
    if str_in "price" pl then
      pl' <- py_lower problem ;;
      Ret (PStr (base_principle ++ " Data suggests " ++ pl' ++ " " ++ trend ++ "."))
    else inconclusive
  else inconclusive.

Definition hybrid_reasoning_engine (w : world) (file_path : pyval) : result pyval :=
  data <- read_input_file w file_path ;;
  err <- py_contains "error" data ;;
  if err then py_getitem data "error"
  else
    reasoning_data <- py_get data "hybrid_reasoning" (PDict []) ;;
    problem <- py_get reasoning_data "problem" (PStr "") ;;
    data_points <- py_get reasoning_data "data" (PList []) ;;
    if negb (truthy problem) then Ret (PStr "No problem provided")
    else
      domain <- domain_of data_points ;;
      base_principle <- table_get first_principles domain "General reasoning applies." ;;
      items <- py_iter data_points ;;
      observations <- observations_of items ;;
      match observations with
      | [] => Ret (PStr ("Based on " ++ base_principle ++ ", insufficient data to conclude."))
      | _ =>
          positive <- positive_outcomes observations ;;
          let total := Z.of_nat (List.length observations) in
          trend <- trend_of positive total ;;
          conclude w domain problem base_principle trend
      end.

(** *** The driver *)

(** The lines written by [print(label, value)], oldest first. *)
Definition output : Type := list (string * pyval).

(** [run_framework]: the four components in turn, each result printed
    under its label; an exception ends the run after the lines already
    printed. *)
Definition run_framework (w : world) (file_path : pyval) : output * result unit :=
  let step (label : string) (component : world -> pyval -> result pyval)
           (k : output -> output * result unit) (out : output) :=
    match component w file_path with
    | Ret v => k (out ++ [(label, v)])%list
    | Raise e => (out, Raise e)
    end in
  step "Confidence Score:" confidence_score_source
    (step "Analysis Mode:" decision_rule_engine
       (step "Consensus Status:" evaluate_consensus
          (step "Conclusion:" hybrid_reasoning_engine
             (fun out => (out, Ret tt))))) [].

End Engine.

(** ** Sample records *)

Module Samples.
Import Py Engine.

(** A world whose only file, [input.json], holds the document [doc]. *)
Definition disk (doc : pyval) : world := {|
  open_path := fun p =>
    if String.eqb p "input.json" then Ret doc else Raise FileNotFoundError;
  open_fd := fun _ => Raise (OtherError "Bad file descriptor");
  str_of := fun _ => "<object>"
|}.

Definition input_json : pyval := PStr "input.json".

Definition source (type authority : string) (year : Z) (content : string) : pyval :=
  PDict [("type", PStr type); ("year", PInt year);
         ("authority", PStr authority); ("content", PStr content)].

Definition consensus_doc (claim : string) (sources : list pyval) : pyval :=
  PDict [("consensus_eval",
          PDict [("claim", PStr claim); ("sources", PList sources)])].

Definition query_doc (keywords : list string) (domain urgency : string) : pyval :=
  PDict [("decision_rule",
          PDict [("query",
                  PDict [("keywords", PList (map PStr keywords));
                         ("domain", PStr domain); ("urgency", PStr urgency)])])].

Definition source_doc (source_data : pyval) : pyval :=
  PDict [("confidence_score", PDict [("source", source_data)])].

Definition data_point (domain observation : string) : pyval :=
  PDict [("domain", PStr domain); ("observation", PStr observation)].

Definition reasoning_doc (problem : string) (data : list pyval) : pyval :=
  PDict [("hybrid_reasoning", PDict [("problem", PStr problem); ("data", PList data)])].

(** The specification's example: three observations, two of which
    mention an increase. *)
Definition oil_points : list pyval :=
  [data_point "economics" "Demand increase in Asia";
   data_point "economics" "Supply cut announced";
   data_point "economics" "Increase in shipping costs"].

Definition oil_doc : pyval := reasoning_doc "Will oil prices rise?" oil_points.

(** A primary, academic, current-year source that states the claim. *)
Definition good_source : pyval := source "primary" "academic" 2025 "Prices rise".

(** The same source stating the negation of the claim. *)
Definition denying_source : pyval :=
  source "primary" "academic" 2025 "Experts say: not prices rise".

(** A source of unknown type and authority dated fifteen years ahead. *)
Definition future_source : pyval := source "tabloid" "rumour" 2040 "Prices rise".

(** An old opinion piece from a blog. *)
Definition weak_source : pyval := source "opinion" "blog" 2000 "Prices rise".

(** A document with the four sections at once. *)
Definition full_doc : pyval :=
  PDict [("confidence_score", PDict [("source", good_source)]);
         ("decision_rule",
          PDict [("query",
                  PDict [("keywords", PList [PStr "algorithm"]);
                         ("domain", PStr "science"); ("urgency", PStr "high")])]);
         ("consensus_eval",
          PDict [("claim", PStr "prices rise"); ("sources", PList [good_source])]);
         ("hybrid_reasoning",
          PDict [("problem", PStr "Will oil prices rise?"); ("data", PList oil_points)])].

End Samples.

(** ** The specification's reading of the classifier and of the trend *)

Module Spec.
Import Py.

(** Section 4.2 of the specification, word for word: one point for each
    keyword that, case-insensitively, is one of the four technical terms;
    the weight of the domain; the modifier of the urgency. *)
Definition is_technical_term (kw : string) : bool :=
  let k := lower kw in
  (String.eqb k "quantum" || String.eqb k "tariff"
   || String.eqb k "algorithm" || String.eqb k "philosophy")%bool.

Definition keyword_signal (keywords : list string) : Z :=
  Z.of_nat (List.length (filter is_technical_term keywords)).

Definition domain_weight (domain : string) : Z :=
  if String.eqb domain "science" then 2
  else if String.eqb domain "economics" then 2
  else if String.eqb domain "history" then 1
  else 0.

Definition urgency_signal (urgency : string) : Z :=
  if String.eqb urgency "high" then -1
  else if String.eqb urgency "low" then 1
  else 0.

Definition complexity (keywords : list string) (domain urgency : string) : Z :=
  keyword_signal keywords + domain_weight domain + urgency_signal urgency.

(** Section 4.4, step 3: the observations that contain ["increase"],
    case-insensitively, and the trend phrase: ["likely increases"] when
    their fraction of all observations strictly exceeds one half, that
    is when twice their number exceeds the number of observations. *)
Definition mentions_increase (observation : string) : bool :=
  str_in "increase" (lower observation).

Definition increase_count (observations : list string) : Z :=
  Z.of_nat (List.length (filter mentions_increase observations)).

Definition trend (observations : list string) : string :=
  if Z.of_nat (List.length observations) <? 2 * increase_count observations
  then "likely increases" else "may not increase".

End Spec.

(** ** Sign classes of binary64 numbers *)

Module Sign.
Import Py.

(** Neither NaN nor below zero: a zero, a positive finite number or
    [+inf]. *)
Definition nonneg (x : float) : Prop :=
  match x with
  | S754_zero _ | S754_finite false _ _ | S754_infinity false => True
  | _ => False
  end.

(** Above zero: a positive finite number or [+inf]. *)
Definition positive_float (x : float) : Prop :=
  match x with
  | S754_finite false _ _ | S754_infinity false => True
  | _ => False
  end.

Definition positive_finite (x : float) : Prop :=
  match x with S754_finite false _ _ => True | _ => False end.

(** Not NaN, with sign bit [sx]. *)
Definition signed_as (sx : bool) (x : float) : Prop :=
  match x with
  | S754_zero s | S754_infinity s | S754_finite s _ _ => s = sx
  | S754_nan => False
  end.

End Sign.

(** ** Rounding a 53-bit mantissa *)

Module Rounding.
Import Py.

(** What [binary_round_aux] does once the mantissa has been shifted down
    to 53 bits, with the bits shifted out recorded in [r1]: round to
    nearest, ties to even; a carry out of the 53 bits moves to the next
    exponent; an exponent above 971 is an overflow. *)
Definition round_normal (sx : bool) (r1 : shr_record) (e1 : Z) : float :=
  let m2 := round_nearest_even (shr_m r1) (loc_of_shr_record r1) in
  if m2 <? 2 ^ 53 then
    if e1 <=? 971 then S754_finite sx (Z.to_pos m2) e1 else S754_infinity sx
  else
    if e1 + 1 <=? 971 then S754_finite sx 4503599627370496 (e1 + 1)
    else S754_infinity sx.

End Rounding.

(** ** Further readings of the source

    Small definitions used to state properties of the loader, of the
    driver and of lines 116-138 and 159-164. *)

Module Readings.
Import Py Engine.

(** The labels of the driver, in printing order (lines 186-189). *)
Definition labels : list string :=
  ["Confidence Score:"; "Analysis Mode:"; "Consensus Status:"; "Conclusion:"].

(** The principle sentence looked up for a domain text (lines 159-164). *)
Definition principle_of (domain : string) : string :=
  match assoc domain first_principles with
  | Some sentence => sentence
  | None => "General reasoning applies."
  end.

(** The support test of line 124 on a claim and a content text, both
    in ASCII. *)
Definition supports (claim content : string) : bool :=
  str_in (lower claim) (lower content).

(** A world in which every [open] ends in the exception [e]. *)
Definition broken_disk (e : exn) : world := {|
  open_path := fun _ => Raise e;
  open_fd := fun _ => Raise e;
  str_of := fun _ => "<object>"
|}.

End Readings.

(** ** Properties *)

Import Py Engine Samples Sign Rounding.

#[local] Arguments fadd : simpl never.
#[local] Arguments fsub : simpl never.
#[local] Arguments fmul : simpl never.
#[local] Arguments fdiv : simpl never.

(** *** The error monad *)

Lemma bind_ret_inv {A B : Type} (c : result A) (k : A -> result B) (b : B) :
  bind c k = Ret b -> exists a, c = Ret a /\ k a = Ret b.
Proof.
  destruct c as [a|e]; simpl; intros H; [eauto | discriminate].
Qed.

(** From [(x <- c ;; k) = Ret b]: the value [x] of [c] and what is left
    of the computation. *)
Tactic Notation "inv_bind" hyp(H) "as" ident(x) ident(Hx) :=
  apply bind_ret_inv in H; destruct H as (x & Hx & H); cbv beta in H.

(** *** Loaded records *)

(** Each component starts by loading the record and handing back its
    ["error"] entry if it has one. On a record that was loaded and has no
    such entry, what remains is the component's own logic. *)
Section LoadedRecord.

Variables (w : world) (file_path data : pyval).
Hypothesis Hload : read_input_file w file_path = Ret data.
Hypothesis Hrecord : py_contains "error" data = Ret false.

Lemma confidence_score_source_loaded :
  confidence_score_source w file_path
  = (cs <- py_get data "confidence_score" (PDict []) ;;
     source_data <- py_get cs "source" (PDict []) ;;
     if negb (truthy source_data) then Ret (PStr "No source data provided")
     else score_source source_data).
Proof.
  unfold confidence_score_source. rewrite Hload. cbn [bind].
  now rewrite Hrecord.
Qed.

Lemma decision_rule_engine_loaded :
  decision_rule_engine w file_path
  = (dr <- py_get data "decision_rule" (PDict []) ;;
     query_metadata <- py_get dr "query" (PDict []) ;;
     if negb (truthy query_metadata) then Ret (PStr "No query data provided")
     else score <- complexity_score query_metadata ;;
          Ret (PStr (decision_rules score))).
Proof.
  unfold decision_rule_engine. rewrite Hload. cbn [bind].
  now rewrite Hrecord.
Qed.

Lemma evaluate_consensus_loaded :
  evaluate_consensus w file_path
  = (consensus_data <- py_get data "consensus_eval" (PDict []) ;;
     claim <- py_get consensus_data "claim" (PStr "") ;;
     sources <- py_get consensus_data "sources" (PList []) ;;
     if (negb (truthy claim) || negb (truthy sources))%bool
     then Ret (PStr "No claim or sources provided")
     else items <- py_iter sources ;;
          high_conf <- high_conf_sources w items ;;
          consensus_of claim high_conf).
Proof.
  unfold evaluate_consensus. rewrite Hload. cbn [bind].
  now rewrite Hrecord.
Qed.

Lemma hybrid_reasoning_engine_loaded :
  hybrid_reasoning_engine w file_path
  = (reasoning_data <- py_get data "hybrid_reasoning" (PDict []) ;;
     problem <- py_get reasoning_data "problem" (PStr "") ;;
     data_points <- py_get reasoning_data "data" (PList []) ;;
     if negb (truthy problem) then Ret (PStr "No problem provided")
     else
       domain <- domain_of data_points ;;
       base_principle <- table_get first_principles domain "General reasoning applies." ;;
       items <- py_iter data_points ;;
       observations <- observations_of items ;;
       match observations with
       | [] => Ret (PStr ("Based on " ++ base_principle
                          ++ ", insufficient data to conclude."))
       | _ =>
           positive <- positive_outcomes observations ;;
           trend <- trend_of positive (Z.of_nat (List.length observations)) ;;
           conclude w domain problem base_principle trend
       end).
Proof.
  unfold hybrid_reasoning_engine. rewrite Hload. cbn [bind].
  now rewrite Hrecord.
Qed.

End LoadedRecord.

(** *** Substrings *)

Lemma prefix_str_in (p s : string) :
  String.prefix p s = true -> str_in p s = true.
Proof.
  destruct s as [|a s]; simpl; intros H; [exact H | now rewrite H].
Qed.

Lemma str_in_cons (p s : string) (a : ascii) :
  str_in p s = true -> str_in p (String a s) = true.
Proof.
  intros H. cbn [str_in]. rewrite H. apply orb_true_r.
Qed.

Lemma prefix_app_str_in (pre p s : string) :
  String.prefix (pre ++ p) s = true -> str_in p s = true.
Proof.
  revert s. induction pre as [|c pre IH]; intros s H.
  - now apply prefix_str_in.
  - destruct s as [|a s]; simpl in H; [discriminate|].
    destruct (ascii_dec c a); [|discriminate].
    apply str_in_cons, IH, H.
Qed.

(** A text that contains [pre ++ p] contains [p]. *)
Lemma str_in_app (pre p s : string) :
  str_in (pre ++ p) s = true -> str_in p s = true.
Proof.
  induction s as [|a s IH]; intros H; cbn [str_in] in H.
  - now apply (prefix_app_str_in pre p "").
  - apply orb_true_iff in H. destruct H as [H|H].
    + now apply (prefix_app_str_in pre).
    + apply str_in_cons, IH, H.
Qed.

Lemma prefix_app_refl (p post : string) : String.prefix p (p ++ post) = true.
Proof.
  induction p as [|c p IH]; [now destruct post|].
  cbn. destruct (ascii_dec c c); [exact IH|contradiction].
Qed.

Lemma str_in_app_r (p pre s : string) :
  str_in p s = true -> str_in p (pre ++ s) = true.
Proof.
  intros H. induction pre as [|c pre IH]; [exact H|].
  cbn [String.append]. now apply str_in_cons.
Qed.

(** A text occurs in whatever is wrapped around it. *)
Lemma str_in_middle (pre p post : string) : str_in p (pre ++ p ++ post) = true.
Proof. apply str_in_app_r, prefix_str_in, prefix_app_refl. Qed.

(** *** binary64: rounding keeps the sign and never yields NaN *)

Lemma iter_pos_invariant {A : Type} (P : A -> Prop) (f : A -> A) :
  (forall x, P x -> P (f x)) -> forall n x, P x -> P (iter_pos f n x).
Proof.
  intros Hf. induction n as [n IH|n IH|]; intros x Hx; cbn [iter_pos]; auto.
Qed.

Lemma shr_1_nonneg (mrs : shr_record) : 0 <= shr_m mrs -> 0 <= shr_m (shr_1 mrs).
Proof.
  destruct mrs as [m r s]. cbn [shr_m]. destruct m as [|[p|p|]|[p|p|]]; cbn; lia.
Qed.

Lemma shr_record_of_loc_m (m : Z) (l : location) : shr_m (shr_record_of_loc m l) = m.
Proof. destruct l as [|[]]; reflexivity. Qed.

Lemma loc_of_shr_record_of_loc (m : Z) (l : location) :
  loc_of_shr_record (shr_record_of_loc m l) = l.
Proof. destruct l as [|[]]; reflexivity. Qed.

Lemma shr_fexp_nonneg (m e : Z) (l : location) :
  0 <= m -> 0 <= shr_m (fst (shr_fexp prec emax m e l)).
Proof.
  intros Hm. unfold shr_fexp, shr.
  destruct (fexp prec emax (Zdigits2 m + e) - e) as [|n|n]; cbn [fst];
    rewrite ?shr_record_of_loc_m; try assumption.
  apply iter_pos_invariant; [exact shr_1_nonneg|].
  now rewrite shr_record_of_loc_m.
Qed.

Lemma round_nearest_even_nonneg (m : Z) (l : location) :
  0 <= m -> 0 <= round_nearest_even m l.
Proof.
  intros Hm. destruct l as [|[]]; cbn; try assumption; [|lia].
  destruct (Z.even m); lia.
Qed.

Lemma round_nearest_even_bounds (m : Z) (l : location) :
  m <= round_nearest_even m l <= m + 1.
Proof.
  destruct l as [|[]]; cbn; try lia. destruct (Z.even m); lia.
Qed.

Lemma binary_round_aux_sign (sx : bool) (mx ex : Z) (lx : location) :
  0 <= mx -> signed_as sx (binary_round_aux prec emax sx mx ex lx).
Proof.
  intros Hm. unfold binary_round_aux.
  pose proof (shr_fexp_nonneg mx ex lx Hm) as H1.
  destruct (shr_fexp prec emax mx ex lx) as [mrs' e']. cbn [fst] in H1.
  pose proof (shr_fexp_nonneg _ e' loc_Exact
                (round_nearest_even_nonneg _ (loc_of_shr_record mrs') H1)) as H2.
  destruct (shr_fexp prec emax _ e' loc_Exact) as [mrs'' e'']. cbn [fst] in H2.
  destruct (shr_m mrs'') as [|m|m]; [reflexivity| |lia].
  destruct (e'' <=? emax - prec); reflexivity.
Qed.

Lemma binary_round_sign (sx : bool) (m : positive) (e : Z) :
  signed_as sx (binary_round prec emax sx m e).
Proof.
  unfold binary_round.
  destruct (shl_align m e (fexp prec emax (Z.pos (digits2_pos m) + e))) as [mz ez].
  apply binary_round_aux_sign. lia.
Qed.

Lemma signed_as_nonneg (x : float) : signed_as false x -> nonneg x.
Proof. destruct x as [s|s| |s m e]; cbn; intros H; subst; auto. Qed.

Lemma positive_float_nonneg (x : float) : positive_float x -> nonneg x.
Proof. destruct x as [s|[]| |[] m e]; cbn; tauto. Qed.

Lemma fmul_nonneg (x y : float) : positive_finite x -> nonneg y -> nonneg (fmul x y).
Proof.
  destruct x as [| | |[] mx ex]; cbn; try tauto. intros _.
  destruct y as [s|[]| |[] my ey]; cbn; try tauto. intros _.
  apply signed_as_nonneg. unfold fmul, SFmul. apply binary_round_aux_sign. lia.
Qed.

Lemma fadd_nonneg (x y : float) : nonneg x -> nonneg y -> nonneg (fadd x y).
Proof.
  destruct x as [sx|[]| |[] mx ex]; cbn; try tauto; intros _;
    destruct y as [sy|[]| |[] my ey]; cbn; try tauto; intros _.
  - unfold fadd, SFadd. destruct sx, sy; exact I.
  - apply signed_as_nonneg. unfold fadd, SFadd.
    cbn [cond_Zopp]. unfold binary_normalize.
    destruct (Z.pos _ + Z.pos _) eqn:E; try lia.
    apply binary_round_sign.
Qed.

Lemma positive_finite_nonneg (x : float) : positive_finite x -> nonneg x.
Proof. destruct x as [s|[]| |[] m e]; cbn; tauto. Qed.

Lemma nonneg_zero (s : bool) : nonneg (S754_zero s).
Proof. exact I. Qed.

Create HintDb binary64 discriminated.

#[local] Hint Resolve fmul_nonneg fadd_nonneg positive_float_nonneg
  positive_finite_nonneg signed_as_nonneg nonneg_zero : binary64.
#[local] Hint Extern 1 (positive_finite _) => exact I : binary64.
#[local] Hint Extern 1 (nonneg _) => exact I : binary64.

Lemma fle_zero_nonneg (x : float) : nonneg x -> fle f0_0 x = true.
Proof.
  destruct x as [s|[]| |[] m e]; intros H; try contradiction; reflexivity.
Qed.

Lemma flt_nonneg_zero (x : float) : nonneg x -> flt x f0_0 = false.
Proof.
  destruct x as [s|[]| |[] m e]; intros H; try contradiction; reflexivity.
Qed.

Lemma fle_of_not_flt (x : float) :
  nonneg x -> flt f1_0 x = false -> fle x f1_0 = true.
Proof.
  destruct x as [s|[]| |[] m e]; intros H Hl; try contradiction;
    try reflexivity; try discriminate.
  revert Hl. unfold flt, fle, SFltb, SFleb, f1_0, SFcompare.
  rewrite (Z.compare_antisym e (-52)).
  destruct (e ?= -52); cbn [CompOpp]; try discriminate; try reflexivity.
  rewrite <- (Pos.compare_cont_antisym _ _ Eq).
  destruct (Pos.compare_cont Eq m 4503599627370496); cbn [CompOpp];
    try discriminate; reflexivity.
Qed.

Lemma float_gt_zero (x : float) :
  float_compare_int x 0 = Some Gt -> positive_float x.
Proof.
  destruct x as [s|[]| |[] m e]; cbn; try discriminate; try tauto.
  destruct (0 <=? e); intros H; [|discriminate].
  injection H as H. pose proof (Z.pow_nonneg 2 e ltac:(lia)) as Hp.
  destruct (2 ^ e); try discriminate. lia.
Qed.

Lemma not_positive_compare (d : float) :
  d = S754_zero false \/ signed_as true d -> float_compare_int d 0 <> Some Gt.
Proof.
  intros [->|H]; [discriminate|].
  destruct d as [s|s| |s m e]; cbn in H; subst; try discriminate.
  unfold float_compare_int. destruct (0 <=? e); [|discriminate].
  pose proof (Z.pow_nonneg 2 e ltac:(lia)) as Hp.
  destruct (2 ^ e); try discriminate. lia.
Qed.

(** *** binary64: rounding in the normal range *)

Lemma digits2_pos_size (p : positive) : digits2_pos p = Pos.size p.
Proof. induction p as [p IH|p IH|]; cbn; now rewrite ?IH. Qed.

Lemma Zdigits2_log2 (m : Z) : 0 < m -> Zdigits2 m = Z.log2 m + 1.
Proof.
  destruct m as [|p|p]; try lia. intros _. cbn [Zdigits2].
  rewrite digits2_pos_size. destruct p as [p|p|]; cbn; lia.
Qed.

Lemma Zdigits2_spec (m : Z) :
  0 < m -> 2 ^ (Zdigits2 m - 1) <= m < 2 ^ Zdigits2 m.
Proof.
  intros Hm. rewrite Zdigits2_log2 by assumption.
  replace (Z.log2 m + 1 - 1) with (Z.log2 m) by lia.
  apply (Z.log2_spec m Hm).
Qed.

Lemma Zdigits2_bounds (m k : Z) :
  0 <= k -> 2 ^ k <= m < 2 ^ (k + 1) -> Zdigits2 m = k + 1.
Proof.
  intros Hk Hm. assert (0 < m) by (pose proof (Z.pow_pos_nonneg 2 k); lia).
  rewrite Zdigits2_log2 by assumption. f_equal.
  apply Z.log2_unique; assumption.
Qed.

Lemma Zdigits2_ge (m k : Z) : 0 <= k -> 2 ^ k <= m -> k + 1 <= Zdigits2 m.
Proof.
  intros Hk Hm. assert (0 < m) by (pose proof (Z.pow_pos_nonneg 2 k); lia).
  pose proof (Zdigits2_spec m ltac:(assumption)) as [_ Hs].
  assert (0 <= Zdigits2 m) by (rewrite Zdigits2_log2 by lia; pose proof (Z.log2_nonneg m); lia).
  assert (k < Zdigits2 m); [|lia].
  apply (Z.pow_lt_mono_r_iff 2); lia.
Qed.

Lemma shr_1_m (r : shr_record) : 0 <= shr_m r -> shr_m (shr_1 r) = shr_m r / 2.
Proof.
  destruct r as [m rb sb]. cbn [shr_m]. intros Hm.
  destruct m as [|[p|p|]|p]; try lia; cbn [shr_1 shr_m].
  - reflexivity.
  - rewrite Pos2Z.inj_xI. apply (Z.div_unique _ _ _ 1); lia.
  - rewrite Pos2Z.inj_xO. apply (Z.div_unique _ _ _ 0); lia.
  - reflexivity.
Qed.

Lemma iter_shr_1_m (n : positive) (r : shr_record) :
  0 <= shr_m r -> shr_m (iter_pos shr_1 n r) = shr_m r / 2 ^ Z.pos n.
Proof.
  revert r. induction n as [n IH|n IH|]; intros r Hr; cbn [iter_pos].
  - assert (H1 : 0 <= shr_m (shr_1 r)) by now apply shr_1_nonneg.
    assert (H2 : 0 <= shr_m (iter_pos shr_1 n (shr_1 r)))
      by (apply iter_pos_invariant; [exact shr_1_nonneg|assumption]).
    rewrite IH, IH, shr_1_m by assumption.
    rewrite !Z.div_div by lia. f_equal.
    replace (Z.pos n~1) with (1 + Z.pos n + Z.pos n) by lia.
    rewrite !Z.pow_add_r by lia. lia.
  - assert (H2 : 0 <= shr_m (iter_pos shr_1 n r))
      by (apply iter_pos_invariant; [exact shr_1_nonneg|assumption]).
    rewrite IH, IH by assumption.
    rewrite !Z.div_div by lia. f_equal.
    replace (Z.pos n~0) with (Z.pos n + Z.pos n) by lia.
    rewrite !Z.pow_add_r by lia. lia.
  - rewrite shr_1_m by assumption. reflexivity.
Qed.

Lemma shr_spec (r : shr_record) (e n : Z) :
  0 <= shr_m r -> 0 <= n ->
  snd (shr r e n) = e + n /\ shr_m (fst (shr r e n)) = shr_m r / 2 ^ n.
Proof.
  intros Hr Hn. unfold shr. destruct n as [|p|p]; try lia; cbn [fst snd].
  - rewrite Z.div_1_r. lia.
  - split; [reflexivity|]. now apply iter_shr_1_m.
Qed.

Lemma binary_round_aux_normal (sx : bool) (mx ex : Z) (lx : location) :
  0 < mx -> 53 <= Zdigits2 mx -> -1074 <= Zdigits2 mx + ex - 53 ->
  let n := Zdigits2 mx - 53 in
  let r1 := fst (shr (shr_record_of_loc mx lx) ex n) in
  binary_round_aux prec emax sx mx ex lx = round_normal sx r1 (ex + n) /\
  shr_m r1 = mx / 2 ^ n /\ 2 ^ 52 <= shr_m r1 < 2 ^ 53.
Proof.
  intros Hm Hd He n.
  assert (Hnd : Zdigits2 mx = 53 + n) by (unfold n; lia).
  assert (Hn : 0 <= n) by (unfold n; lia).
  clearbody n. intros r1.
  destruct (shr_spec (shr_record_of_loc mx lx) ex n) as [He1 Hm1];
    [rewrite shr_record_of_loc_m; lia | assumption |].
  rewrite shr_record_of_loc_m in Hm1. fold r1 in Hm1.
  assert (Hb : 2 ^ 52 <= shr_m r1 < 2 ^ 53).
  { rewrite Hm1. pose proof (Zdigits2_spec mx Hm) as Hs. rewrite Hnd in Hs.
    replace (53 + n - 1) with (52 + n) in Hs by lia.
    rewrite !Z.pow_add_r in Hs by lia.
    pose proof (Z.pow_pos_nonneg 2 n ltac:(lia) Hn) as Hp.
    split.
    - apply Z.div_le_lower_bound; lia.
    - apply Z.div_lt_upper_bound; lia. }
  split; [|split; assumption].
  unfold binary_round_aux, shr_fexp.
  assert (Hf : fexp prec emax (Zdigits2 mx + ex) - ex = n).
  { unfold fexp, emin, prec, emax. lia. }
  rewrite Hf.
  destruct (shr (shr_record_of_loc mx lx) ex n) as [r1' e1] eqn:Hshr.
  cbn [fst snd] in *. subst r1 e1.
  unfold round_normal.
  pose proof (round_nearest_even_bounds (shr_m r1') (loc_of_shr_record r1')) as Hr.
  set (m2 := round_nearest_even (shr_m r1') (loc_of_shr_record r1')) in *.
  destruct (Z.ltb_spec m2 (2 ^ 53)) as [Hlt|Hge].
  - assert (Hd2 : Zdigits2 m2 = 53).
    { apply (Zdigits2_bounds m2 52); [lia|]. change (52 + 1) with 53. lia. }
    rewrite Hd2.
    assert (Hf2 : fexp prec emax (53 + (ex + n)) - (ex + n) = 0).
    { unfold fexp, emin, prec, emax. lia. }
    rewrite Hf2. cbn [shr shr_record_of_loc shr_m].
    destruct m2 as [|p|p]; try lia. reflexivity.
  - assert (Hm2 : m2 = 2 ^ 53) by lia. rewrite Hm2.
    change (Zdigits2 (2 ^ 53)) with 54.
    assert (Hf2 : fexp prec emax (54 + (ex + n)) - (ex + n) = 1).
    { unfold fexp, emin, prec, emax. lia. }
    rewrite Hf2. reflexivity.
Qed.

Lemma new_location_exact (b : Z) : new_location b 0 = loc_Exact.
Proof. unfold new_location. destruct (Z.even b); reflexivity. Qed.

Lemma new_location_inexact (b r : Z) :
  r <> 0 -> exists c, new_location b r = loc_Inexact c.
Proof.
  intros Hr. unfold new_location, new_location_even, new_location_odd.
  destruct (Z.even b); destruct (Z.eqb_spec r 0); try contradiction;
    eexists; reflexivity.
Qed.

Lemma new_location_gt (b r : Z) :
  0 < r -> b < 2 * r -> new_location b r = loc_Inexact Gt.
Proof.
  intros Hr Hb. unfold new_location, new_location_even, new_location_odd.
  destruct (Z.even b); destruct (Z.eqb_spec r 0); try lia.
  - f_equal. apply Z.compare_gt_iff. lia.
  - assert (E : (2 * r + 1 ?= b) = Gt) by (apply Z.compare_gt_iff; lia).
    now rewrite E.
Qed.

Lemma shifted_numerator (m s : Z) :
  0 <= s ->
  match s with Z.pos _ => Z.shiftl m s | 0 => m | Z.neg _ => 0 end = m * 2 ^ s.
Proof.
  intros Hs. destruct s as [|p|p]; try lia.
  now rewrite Z.shiftl_mul_pow2.
Qed.

Lemma div_eucl_mul_pow (p : positive) (k : Z) :
  0 <= k -> Z.div_eucl (Z.pos p * 2 ^ k) (Z.pos p) = (2 ^ k, 0).
Proof.
  intros Hk.
  pose proof (Z.div_eucl_eq (Z.pos p * 2 ^ k) (Z.pos p)) as He.
  pose proof (Z.mod_pos_bound (Z.pos p * 2 ^ k) (Z.pos p)) as Hb.
  unfold Z.modulo in Hb.
  destruct (Z.div_eucl (Z.pos p * 2 ^ k) (Z.pos p)) as [q r].
  specialize (He ltac:(lia)). specialize (Hb ltac:(lia)).
  assert (q = 2 ^ k) by nia. subst q. f_equal. lia.
Qed.

(** *** binary64: three quotients of integers *)

(** [s / s] is [1.0] in binary64, whatever the positive integer [s]. *)
Lemma SFdiv_self (p : positive) :
  SFdiv prec emax (S754_finite false p 0) (S754_finite false p 0) = f1_0.
Proof.
  unfold SFdiv, SFdiv_core_binary.
  replace (Zdigits2 (Z.pos p) + 0 - (Zdigits2 (Z.pos p) + 0)) with 0 by lia.
  change (Z.min (fexp prec emax 0) (0 - 0)) with (-53).
  change (0 - 0 - -53) with 53.
  cbv iota beta.
  rewrite Z.shiftl_mul_pow2 by lia.
  rewrite div_eucl_mul_pow by lia.
  assert (Hl : new_location (Z.pos p) 0 = loc_Exact).
  { unfold new_location. destruct (Z.even (Z.pos p)); reflexivity. }
  rewrite Hl. reflexivity.
Qed.

Lemma int_true_div_self (s : Z) : 0 < s -> int_true_div s s = Ret f1_0.
Proof.
  intros Hs. destruct s as [|p|p]; try lia.
  unfold int_true_div. cbn [Z.eqb raw_int]. now rewrite SFdiv_self.
Qed.

(** The quotient of an integer of at least 5 by 5 is, in binary64, at
    least [1.0] (or out of range). *)
Lemma SFdiv_by_5_ge_one (p : positive) :
  5 <= Z.pos p ->
  let x := SFdiv prec emax (S754_finite false p 0) (S754_finite false 5 0) in
  x = S754_infinity false \/
  exists mf ef, x = S754_finite false mf ef /\ 2 ^ 52 <= Z.pos mf /\ -52 <= ef.
Proof.
  intros Hp. cbv zeta. unfold SFdiv, SFdiv_core_binary.
  change (Zdigits2 5) with 3. cbn [xorb].
  pose proof (Zdigits2_spec (Z.pos p) ltac:(lia)) as Hd.
  pose proof (Zdigits2_ge (Z.pos p) 2 ltac:(lia) ltac:(lia)) as Hd3.
  set (d1 := Zdigits2 (Z.pos p)) in *.
  set (e' := Z.min (fexp prec emax (d1 + 0 - (3 + 0))) (0 - 0)).
  assert (He' : e' = Z.min (d1 - 56) 0).
  { unfold e', fexp, emin, prec, emax. lia. }
  set (s := 0 - 0 - e'). assert (Hs : 0 <= s) by (unfold s; lia).
  rewrite (shifted_numerator _ s Hs).
  assert (Hm' : 2 ^ 55 <= Z.pos p * 2 ^ s /\ 5 * 2 ^ s <= Z.pos p * 2 ^ s).
  { pose proof (Z.pow_pos_nonneg 2 s ltac:(lia) Hs).
    split; [|nia].
    destruct (Z.le_gt_cases d1 56) as [Hle|Hgt].
    - assert (Hs56 : s = 56 - d1) by (unfold s; lia).
      assert (H55 : 2 ^ 55 = 2 ^ (d1 - 1) * 2 ^ s).
      { rewrite <- Z.pow_add_r by lia. f_equal. lia. }
      rewrite H55. nia.
    - assert (Hs0 : s = 0) by (unfold s; lia). rewrite Hs0, Z.mul_1_r.
      assert (2 ^ 55 <= 2 ^ (d1 - 1)) by (apply Z.pow_le_mono_r; lia). lia. }
  pose proof (Z.div_eucl_eq (Z.pos p * 2 ^ s) 5 ltac:(lia)) as Hq.
  pose proof (Z.mod_pos_bound (Z.pos p * 2 ^ s) 5 ltac:(lia)) as Hr.
  unfold Z.modulo in Hr.
  destruct (Z.div_eucl (Z.pos p * 2 ^ s) 5) as [q r].
  assert (Hq52 : 2 ^ 52 <= q) by lia.
  assert (Hqs : 2 ^ s <= q) by lia.
  pose proof (Zdigits2_ge q 52 ltac:(lia) Hq52) as Hdq.
  pose proof (Zdigits2_ge q s Hs Hqs) as Hdqs.
  destruct (binary_round_aux_normal false q e' (new_location 5 r))
    as (-> & _ & Hb); try lia.
  set (r1 := fst (shr _ _ _)) in *.
  unfold round_normal.
  pose proof (round_nearest_even_bounds (shr_m r1) (loc_of_shr_record r1)) as Hrn.
  set (m2 := round_nearest_even (shr_m r1) (loc_of_shr_record r1)) in *.
  assert (He1 : -52 <= e' + (Zdigits2 q - 53)) by (unfold s in *; lia).
  destruct (m2 <? 2 ^ 53).
  - destruct (_ <=? 971); [right|now left].
    exists (Z.to_pos m2), (e' + (Zdigits2 q - 53)).
    split; [reflexivity|]. rewrite Z2Pos.id by lia. lia.
  - destruct (_ <=? 971); [right|now left].
    exists 4503599627370496%positive, (e' + (Zdigits2 q - 53) + 1).
    split; [reflexivity|]. lia.
Qed.

Lemma iter_xO_le (m d : positive) : (m <= Pos.iter xO m d)%positive.
Proof.
  apply Pos.iter_invariant; [|lia]. intros x Hx. lia.
Qed.

(** [1.0 - q] is a zero or negative as soon as [q] is at least [1.0]. *)
Lemma fsub_one_not_positive (mf : positive) (ef : Z) :
  2 ^ 52 <= Z.pos mf -> -52 <= ef ->
  let d := fsub f1_0 (S754_finite false mf ef) in
  d = S754_zero false \/ signed_as true d.
Proof.
  intros Hm He. cbv zeta. unfold fsub, f1_0, SFsub.
  replace (Z.min (-52) ef) with (-52) by lia.
  cbn [cond_Zopp]. change (shl_align 4503599627370496 (-52) (-52)) with
    (4503599627370496%positive, -52). cbn [fst].
  assert (Ha : 2 ^ 52 <= Z.pos (fst (shl_align mf ef (-52)))).
  { unfold shl_align. destruct (-52 - ef) as [|d|d]; cbn [fst]; try lia.
    pose proof (iter_xO_le mf d). lia. }
  unfold binary_normalize.
  destruct (_ - _) as [|D|D] eqn:HD; [now left|lia|right].
  apply binary_round_sign.
Qed.

Lemma flt_half_finite (m : positive) (e : Z) :
  flt f0_5 (S754_finite false m e) =
  ((-53 <? e) || ((e =? -53) && (2 ^ 52 <? Z.pos m)))%bool.
Proof.
  unfold flt, f0_5, SFltb, SFcompare.
  destruct (Z.compare_spec (-53) e) as [He|He|He].
  - subst e. cbn [Z.ltb Z.eqb Z.compare orb andb Pos.eqb].
    change (Pos.compare_cont Eq 4503599627370496 m) with
      (Z.pos 4503599627370496 ?= Z.pos m).
    unfold Z.ltb. change (2 ^ 52) with (Z.pos 4503599627370496).
    destruct (Z.pos 4503599627370496 ?= Z.pos m); reflexivity.
  - destruct (Z.ltb_spec (-53) e); [reflexivity|lia].
  - destruct (Z.ltb_spec (-53) e); [lia|].
    destruct (Z.eqb_spec e (-53)); [lia|reflexivity].
Qed.

Lemma round_normal_above_half (r1 : shr_record) (e1 : Z) :
  2 ^ 52 <= shr_m r1 < 2 ^ 53 -> e1 <= 0 ->
  -53 < e1 \/ (e1 = -53 /\ 2 ^ 52 < round_nearest_even (shr_m r1) (loc_of_shr_record r1)) ->
  exists mf ef, round_normal false r1 e1 = S754_finite false mf ef /\
                flt f0_5 (S754_finite false mf ef) = true.
Proof.
  intros Hb He H. unfold round_normal.
  pose proof (round_nearest_even_bounds (shr_m r1) (loc_of_shr_record r1)) as Hr.
  set (m2 := round_nearest_even (shr_m r1) (loc_of_shr_record r1)) in *.
  destruct (m2 <? 2 ^ 53).
  - destruct (Z.leb_spec e1 971); [|lia].
    eexists _, _. split; [reflexivity|]. rewrite flt_half_finite.
    rewrite Z2Pos.id by lia.
    destruct (Z.ltb_spec (-53) e1); [reflexivity|].
    destruct (Z.eqb_spec e1 (-53)); [|lia].
    destruct (Z.ltb_spec (2 ^ 52) m2); [reflexivity|lia].
  - destruct (Z.leb_spec (e1 + 1) 971); [|lia].
    eexists _, _. split; [reflexivity|]. rewrite flt_half_finite.
    destruct (Z.ltb_spec (-53) (e1 + 1)); [reflexivity|lia].
Qed.

Lemma round_normal_at_most_half (r1 : shr_record) (e1 : Z) :
  2 ^ 52 <= shr_m r1 < 2 ^ 53 ->
  e1 <= -54 \/ (e1 = -53 /\ round_nearest_even (shr_m r1) (loc_of_shr_record r1) = 2 ^ 52) ->
  exists mf ef, round_normal false r1 e1 = S754_finite false mf ef /\
                flt f0_5 (S754_finite false mf ef) = false.
Proof.
  intros Hb H. unfold round_normal.
  pose proof (round_nearest_even_bounds (shr_m r1) (loc_of_shr_record r1)) as Hr.
  set (m2 := round_nearest_even (shr_m r1) (loc_of_shr_record r1)) in *.
  destruct (Z.ltb_spec m2 (2 ^ 53)).
  - destruct (Z.leb_spec e1 971); [|lia].
    eexists _, _. split; [reflexivity|]. rewrite flt_half_finite.
    rewrite Z2Pos.id by lia.
    destruct (Z.ltb_spec (-53) e1); [lia|].
    destruct (Z.eqb_spec e1 (-53)); [|reflexivity].
    destruct (Z.ltb_spec (2 ^ 52) m2); [lia|reflexivity].
  - destruct (Z.leb_spec (e1 + 1) 971); [|lia].
    eexists _, _. split; [reflexivity|]. rewrite flt_half_finite.
    destruct (Z.ltb_spec (-53) (e1 + 1)); [lia|].
    rewrite andb_false_r. reflexivity.
Qed.

(** For counts [a <= b] below [2^53], the binary64 quotient [a / b]
    exceeds one half exactly when [a] is more than half of [b]. *)
Lemma SFdiv_vs_half (pa pb : positive) :
  Z.pos pa <= Z.pos pb < 2 ^ 53 ->
  exists mf ef,
    SFdiv prec emax (S754_finite false pa 0) (S754_finite false pb 0)
    = S754_finite false mf ef /\
    flt f0_5 (S754_finite false mf ef) = (Z.pos pb <? 2 * Z.pos pa).
Proof.
  intros [Hab Hb53].
  unfold SFdiv, SFdiv_core_binary. cbn [xorb].
  pose proof (Zdigits2_spec (Z.pos pa) ltac:(lia)) as Hd1.
  pose proof (Zdigits2_spec (Z.pos pb) ltac:(lia)) as Hd2.
  pose proof (Zdigits2_ge (Z.pos pa) 0 ltac:(lia) ltac:(lia)) as Hd1pos.
  pose proof (Zdigits2_ge (Z.pos pb) 0 ltac:(lia) ltac:(lia)) as Hd2pos.
  set (a := Z.pos pa) in *. set (b := Z.pos pb) in *.
  assert (Ha0 : 0 < a) by (unfold a; lia).
  set (d1 := Zdigits2 a) in *. set (d2 := Zdigits2 b) in *.
  clearbody a b d1 d2.
  assert (Hd12 : d1 <= d2).
  { assert (d1 - 1 < d2); [apply (Z.pow_lt_mono_r_iff 2); lia | lia]. }
  assert (Hd53 : d2 <= 53).
  { assert (d2 - 1 < 53); [apply (Z.pow_lt_mono_r_iff 2); lia | lia]. }
  set (delta := d2 - d1).
  assert (He' : Z.min (fexp prec emax (d1 + 0 - (d2 + 0))) (0 - 0) = -53 - delta).
  { unfold fexp, emin, prec, emax, delta. lia. }
  rewrite He'. replace (0 - 0 - (-53 - delta)) with (53 + delta) by lia.
  rewrite shifted_numerator by (unfold delta; lia).
  assert (Hdelta : 0 <= delta <= 52) by (unfold delta; lia).
  assert (HA : 0 < 2 ^ (d1 - 1)) by (apply Z.pow_pos_nonneg; lia).
  assert (Hd1' : 2 ^ d1 = 2 * 2 ^ (d1 - 1)).
  { replace d1 with (1 + (d1 - 1)) at 1 by lia. rewrite Z.pow_add_r by lia. lia. }
  assert (Hd2a : 2 ^ (d2 - 1) = 2 ^ (d1 - 1) * 2 ^ delta).
  { rewrite <- Z.pow_add_r by lia. f_equal. unfold delta. lia. }
  assert (Hd2b : 2 ^ d2 = 2 * 2 ^ (d1 - 1) * 2 ^ delta).
  { replace d2 with (1 + (d2 - 1)) at 1 by lia. rewrite Z.pow_add_r by lia.
    rewrite Hd2a. lia. }
  assert (HS : 2 ^ (53 + delta) = 2 ^ 53 * 2 ^ delta) by (apply Z.pow_add_r; lia).
  rewrite Hd1' in Hd1. rewrite Hd2a, Hd2b in Hd2. rewrite HS.
  assert (HP0 : delta = 0 -> 2 ^ delta = 1) by (intros ->; reflexivity).
  assert (HP1 : delta = 1 -> 2 ^ delta = 2) by (intros ->; reflexivity).
  assert (HP2 : 2 <= delta -> 4 <= 2 ^ delta).
  { intros H. change 4 with (2 ^ 2). apply Z.pow_le_mono_r; lia. }
  assert (HP : 0 < 2 ^ delta) by (apply Z.pow_pos_nonneg; lia).
  set (A := 2 ^ (d1 - 1)) in *. set (P := 2 ^ delta) in *.
  clearbody A P. clear Hd1' Hd2a Hd2b HS He'.
  pose proof (Z.div_eucl_eq (a * (2 ^ 53 * P)) b ltac:(lia)) as Hq.
  pose proof (Z.mod_pos_bound (a * (2 ^ 53 * P)) b ltac:(lia)) as Hr.
  unfold Z.modulo in Hr.
  destruct (Z.div_eucl (a * (2 ^ 53 * P)) b) as [q r].
  assert (HAP : 0 < A * P) by nia.
  assert (HaP : A * P <= a * P) by nia.
  assert (Hq52 : 2 ^ 52 <= q) by nia.
  assert (Hq54 : q < 2 ^ 54) by nia.
  pose proof (Zdigits2_ge q 52 ltac:(lia) Hq52) as Hdq.
  destruct (binary_round_aux_normal false q (-53 - delta) (new_location b r))
    as (-> & Hm1 & Hb1); try lia.
  destruct (Z.lt_ge_cases q (2 ^ 53)) as [Hq53|Hq53].
  - assert (Hdq53 : Zdigits2 q = 53) by (apply (Zdigits2_bounds q 52); lia).
    rewrite Hdq53 in *. change (53 - 53) with 0 in *. cbn [shr fst] in *.
    rewrite Z.add_0_r.
    destruct (Z.ltb_spec b (2 * a)) as [Hmaj|Hmin].
    + assert (Hd0 : delta = 0).
      { destruct (Z.eq_dec delta 0) as [|Hne]; [assumption|exfalso].
        assert (2 <= P) by (destruct (Z.eq_dec delta 1); [lia|specialize (HP2 ltac:(lia)); lia]).
        nia. }
      specialize (HP0 Hd0). rewrite Hd0.
      apply round_normal_above_half; [assumption|lia|right]. split; [reflexivity|].
      rewrite shr_record_of_loc_m, loc_of_shr_record_of_loc.
      destruct (Z.eq_dec q (2 ^ 52)) as [->|Hne].
      * rewrite new_location_gt by nia. reflexivity.
      * pose proof (round_nearest_even_bounds q (new_location b r)). lia.
    + assert (Hd1ge : 1 <= delta).
      { destruct (Z.eq_dec delta 0) as [Hd0|]; [exfalso|lia].
        specialize (HP0 Hd0). nia. }
      apply round_normal_at_most_half; [assumption|left; lia].
  - assert (Hdq54 : Zdigits2 q = 54) by (apply (Zdigits2_bounds q 53); lia).
    rewrite Hdq54 in *. change (54 - 53) with 1 in *. cbn [shr fst iter_pos] in *.
    change (2 ^ 1) with 2 in Hm1.
    destruct (Z.ltb_spec b (2 * a)) as [Hmaj|Hmin].
    + assert (Hd01 : delta = 0 \/ delta = 1).
      { destruct (Z.le_gt_cases 2 delta) as [H2|]; [exfalso|lia].
        specialize (HP2 H2). nia. }
      apply round_normal_above_half; [assumption|lia|].
      destruct Hd01 as [Hd0|Hd1e]; [left; lia|right]. split; [lia|].
      specialize (HP1 Hd1e).
      assert (Hq1 : 2 ^ 53 + 1 <= q) by nia.
      destruct (Z.eq_dec q (2 ^ 53 + 1)) as [->|Hne].
      * destruct (new_location_inexact b r) as [c ->]; [nia|].
        destruct c; reflexivity.
      * pose proof (round_nearest_even_bounds
                      (shr_m (shr_1 (shr_record_of_loc q (new_location b r))))
                      (loc_of_shr_record (shr_1 (shr_record_of_loc q (new_location b r))))).
        assert (2 ^ 52 + 1 <= q / 2) by (apply Z.div_le_lower_bound; lia). lia.
    + destruct (Z.le_gt_cases 2 delta) as [H2|H2].
      * apply round_normal_at_most_half; [assumption|left; lia].
      * assert (Hd1e : delta = 1).
        { destruct (Z.eq_dec delta 0) as [Hd0|]; [exfalso|lia].
          specialize (HP0 Hd0). nia. }
        specialize (HP1 Hd1e).
        assert (Hqe : q = 2 ^ 53) by nia. subst q.
        assert (Hre : r = 0) by nia. subst r.
        rewrite new_location_exact in *.
        apply round_normal_at_most_half; [assumption|right]. split; [lia|reflexivity].
Qed.

(** *** Component 1: the recency score *)

Lemma py_truediv_float (a b v : pyval) :
  py_truediv a b = Ret v -> exists x, v = PFloat x.
Proof.
  unfold py_truediv, arith.
  destruct (as_num a) as [[m|x]|]; [| |discriminate];
    (destruct (as_num b) as [[n|y]|]; [| |discriminate]); intros H.
  - inv_bind H as q Hq. injection H as <-. eauto.
  - inv_bind H as fm Hfm. cbn [num_to_float bind] in H.
    destruct (is_zero y); [discriminate|]. injection H as <-. eauto.
  - cbn [num_to_float bind] in H. inv_bind H as fn Hfn.
    destruct (is_zero fn); [discriminate|]. injection H as <-. eauto.
  - cbn [num_to_float bind] in H.
    destruct (is_zero y); [discriminate|]. injection H as <-. eauto.
Qed.

(** The recency score is the integer 0 or a float above zero. *)
Lemma recency_score_cases (source_data v : pyval) :
  recency_score source_data = Ret v ->
  v = PInt 0 \/ exists x, v = PFloat x /\ positive_float x.
Proof.
  unfold recency_score. intros H.
  inv_bind H as yo Hyo. inv_bind H as q Hq.
  apply py_truediv_float in Hq. destruct Hq as [x ->].
  inv_bind H as d Hd. cbn in Hd. injection Hd as <-.
  unfold py_max, py_gt, py_lt in H. cbn [as_num bind] in H.
  destruct (float_compare_int _ 0) as [[]|] eqn:Hc; injection H as <-; auto.
  right. eexists. split; [reflexivity|]. now apply float_gt_zero.
Qed.

(** A source five or more years old has recency 0, unless the year lies
    so far back that the division overflows. *)
Lemma recency_score_old (source_data : pyval) (y : Z) :
  py_get source_data "year" (PInt current_year) = Ret (PInt y) ->
  5 <= current_year - y ->
  recency_score source_data = Ret (PInt 0) \/
  recency_score source_data = Raise OverflowError.
Proof.
  intros Hy Hold. unfold recency_score, years_old. rewrite Hy.
  cbn [bind py_sub arith as_num py_truediv].
  destruct (current_year - y) as [|p|p] eqn:Hyo; try lia.
  unfold int_true_div. cbn [Z.eqb raw_int].
  destruct (SFdiv_by_5_ge_one p ltac:(lia)) as [->|(mf & ef & -> & Hm & He)];
    [now right|left].
  cbn [bind as_num num_to_float].
  change (int_to_float 1) with (Ret f1_0). cbn [bind].
  unfold py_max, py_gt, py_lt. cbn [as_num bind].
  pose proof (not_positive_compare _ (fsub_one_not_positive mf ef Hm He)) as Hn.
  destruct (float_compare_int _ 0) as [[]|]; congruence.
Qed.

(** C6: the recency component is [max(0, 1 - years_old/5)] with
    [years_old = current_year - year], the current year being the
    source's 2025; a source without a year is treated as published this
    year and loses no recency; a source ten years old, and any source
    five or more years old, gets the integer 0 (a year so remote that
    the division overflows raises instead); the component is never
    negative; and for a source less than five years old it is the
    binary64 value of [1 - years_old/5]. *)
Theorem recency_score_spec :
  (forall source_data y,
      py_get source_data "year" (PInt current_year) = Ret (PInt y) ->
      years_old source_data = Ret (PInt (current_year - y)) /\
      recency_score source_data
      = (q <- int_true_div (current_year - y) 5 ;;
         py_max (PInt 0) (PFloat (fsub f1_0 q)))) /\
  (forall d,
      assoc "year" d = None ->
      years_old (PDict d) = Ret (PInt 0) /\
      recency_score (PDict d) = Ret (PFloat f1_0) /\
      recency_score (PDict d) = recency_score (PDict (("year", PInt current_year) :: d))) /\
  (forall source_data,
      py_get source_data "year" (PInt current_year) = Ret (PInt (current_year - 10)) ->
      recency_score source_data = Ret (PInt 0)) /\
  (forall source_data y,
      py_get source_data "year" (PInt current_year) = Ret (PInt y) ->
      5 <= current_year - y ->
      recency_score source_data = Ret (PInt 0) \/
      recency_score source_data = Raise OverflowError) /\
  (forall source_data v,
      recency_score source_data = Ret v ->
      v = PInt 0 \/ exists x, v = PFloat x /\ positive_float x) /\
  (forall source_data k,
      py_get source_data "year" (PInt current_year) = Ret (PInt (current_year - k)) ->
      0 <= k < 5 ->
      recency_score source_data
      = Ret (PFloat (fsub f1_0 (fdiv (raw_float k) (raw_float 5))))).
Proof.
  split; [|split; [|split; [|split; [|split]]]].
  - intros source_data y Hy. unfold recency_score, years_old. rewrite Hy.
    cbn [bind py_sub arith as_num py_truediv]. split; [reflexivity|].
    destruct (int_true_div (current_year - y) 5) as [q|e]; [|reflexivity].
    cbn [bind as_num num_to_float]. reflexivity.
  - intros d Hd. unfold recency_score, years_old, py_get. rewrite Hd.
    repeat split; reflexivity.
  - intros source_data Hy. unfold recency_score, years_old. rewrite Hy. reflexivity.
  - apply recency_score_old.
  - apply recency_score_cases.
  - intros source_data k Hy Hk. unfold recency_score, years_old. rewrite Hy.
    assert (Hc : k = 0 \/ k = 1 \/ k = 2 \/ k = 3 \/ k = 4) by lia.
    destruct Hc as [->|[->|[->|[->| ->]]]]; reflexivity.
Qed.

Lemma recency_score_spec_witness :
  recency_score (source "primary" "academic" 2015 "Prices rise") = Ret (PInt 0) /\
  recency_score (PDict [("type", PStr "primary")]) = Ret (PFloat f1_0).
Proof.
  destruct recency_score_spec as (_ & Hmissing & Hten & _).
  split.
  - apply Hten. reflexivity.
  - apply (Hmissing [("type", PStr "primary")]). reflexivity.
Defined.

(** *** Component 1: the confidence score *)

Lemma table_get_cases {A : Type} (table : list (string * A)) (k : pyval) (d v : A) :
  table_get table k d = Ret v -> v = d \/ In v (map snd table).
Proof.
  assert (Ha : forall s x, assoc s table = Some x -> In x (map snd table)).
  { intros s. induction table as [|[k' v'] t IH]; cbn; intros x Hx; [discriminate|].
    destruct (String.eqb s k'); [injection Hx as <-; now left | right; now apply IH]. }
  destruct k; cbn; intros H; try discriminate; try (injection H as <-; now left).
  destruct (assoc s table) eqn:E; injection H as <-; [right; eapply Ha; eauto | now left].
Qed.

Lemma source_types_positive (k : pyval) (v : float) :
  table_get source_types k f0_3 = Ret v -> positive_finite v.
Proof.
  intros H. apply table_get_cases in H. cbn in H.
  repeat destruct H as [H|H]; subst; try exact I; contradiction.
Qed.

Lemma authorities_positive (k : pyval) (v : float) :
  table_get authorities k f0_2 = Ret v -> positive_finite v.
Proof.
  intros H. apply table_get_cases in H. cbn in H.
  repeat destruct H as [H|H]; subst; try exact I; contradiction.
Qed.

Lemma weighted_sum_nonneg (source_data v : pyval) :
  weighted_sum source_data = Ret v -> exists s, v = PFloat s /\ nonneg s.
Proof.
  unfold weighted_sum. intros H.
  inv_bind H as ty Hty. inv_bind H as ts Hts. apply source_types_positive in Hts.
  inv_bind H as t1 Ht1. inv_bind H as s1 Hs1.
  inv_bind H as rs Hrs. apply recency_score_cases in Hrs.
  inv_bind H as t2 Ht2. inv_bind H as s2 Hs2.
  inv_bind H as au Hau. inv_bind H as aus Haus. apply authorities_positive in Haus.
  inv_bind H as t3 Ht3.
  cbn in Ht1. injection Ht1 as <-. cbn in Hs1. injection Hs1 as <-.
  cbn in Ht3. injection Ht3 as <-.
  assert (Hn2 : exists x2, t2 = PFloat x2 /\ nonneg x2).
  { destruct Hrs as [->|(x & -> & Hx)]; cbn in Ht2; injection Ht2 as <-;
      eexists; (split; [reflexivity|]); auto with binary64. }
  destruct Hn2 as (x2 & -> & Hn2).
  cbn in Hs2. injection Hs2 as <-. cbn in H. injection H as <-.
  eexists. split; [reflexivity|]. auto 8 with binary64.
Qed.

Lemma clamp_unit_interval (s : float) (v : pyval) :
  nonneg s ->
  (m <- py_max (PFloat s) (PFloat f0_0) ;; py_min m (PFloat f1_0)) = Ret v ->
  exists x, v = PFloat x /\ fle f0_0 x = true /\ fle x f1_0 = true.
Proof.
  intros Hs. unfold py_max, py_gt, py_lt. cbn [as_num bind].
  rewrite (flt_nonneg_zero s Hs). unfold py_min, py_lt. cbn [as_num bind].
  destruct (flt f1_0 s) eqn:Hl; intros H; injection H as <-.
  - exists f1_0. repeat split.
  - exists s. split; [reflexivity|]. split.
    + now apply fle_zero_nonneg.
    + now apply fle_of_not_flt.
Qed.

Lemma score_source_unit_interval (source_data v : pyval) :
  score_source source_data = Ret v ->
  exists x, v = PFloat x /\ fle f0_0 x = true /\ fle x f1_0 = true.
Proof.
  unfold score_source. intros H. inv_bind H as score Hscore.
  apply weighted_sum_nonneg in Hscore. destruct Hscore as (s & -> & Hs).
  now apply (clamp_unit_interval s).
Qed.

(** C7: whatever the source description (future years, unknown type or
    authority, a float or boolean year included), a score that
    [confidence_score_source] returns for a loaded record lies in
    [0.0, 1.0]; the only other value returned for such a record is the
    text reporting that no source was given. *)
Theorem confidence_score_in_unit_interval
  (w : world) (file_path data cs source_data v : pyval) :
  read_input_file w file_path = Ret data ->
  py_contains "error" data = Ret false ->
  py_get data "confidence_score" (PDict []) = Ret cs ->
  py_get cs "source" (PDict []) = Ret source_data ->
  confidence_score_source w file_path = Ret v ->
  v = PStr "No source data provided" \/
  exists x, v = PFloat x /\ fle f0_0 x = true /\ fle x f1_0 = true.
Proof.
  intros Hd He Hcs Hs. rewrite (confidence_score_source_loaded _ _ _ Hd He).
  rewrite Hcs. cbn [bind]. rewrite Hs. cbn [bind].
  destruct (truthy source_data); cbn [negb]; intros H.
  - right. now apply (score_source_unit_interval source_data).
  - left. now injection H.
Qed.

Lemma confidence_score_in_unit_interval_witness :
  exists x,
    confidence_score_source (disk (source_doc future_source)) input_json
    = Ret (PFloat x) /\
    fle f0_0 x = true /\ fle x f1_0 = true.
Proof.
  assert (H : confidence_score_source (disk (source_doc future_source)) input_json
              = Ret (PFloat f1_0)) by (vm_compute; reflexivity).
  destruct (confidence_score_in_unit_interval
              (disk (source_doc future_source)) input_json
              (source_doc future_source)
              (PDict [("source", future_source)]) future_source (PFloat f1_0)
              eq_refl eq_refl eq_refl eq_refl H)
    as [Hs|(x & Hx & Hr)]; [discriminate Hs|].
  exists x. split; [|exact Hr]. rewrite H. exact (f_equal Ret Hx).
Defined.

(** C10: a primary, academic, current-year source scores
    [0.4*0.9 + 0.3*1.0 + 0.3*0.9], which in binary64 is the float
    [0.93]. *)
Theorem primary_academic_current_year_score
  (w : world) (file_path data cs : pyval) (source_data : list (string * pyval)) :
  read_input_file w file_path = Ret data ->
  py_contains "error" data = Ret false ->
  py_get data "confidence_score" (PDict []) = Ret cs ->
  py_get cs "source" (PDict []) = Ret (PDict source_data) ->
  assoc "type" source_data = Some (PStr "primary") ->
  assoc "authority" source_data = Some (PStr "academic") ->
  assoc "year" source_data = Some (PInt current_year) ->
  confidence_score_source w file_path = Ret (PFloat f0_93) /\
  fadd (fadd (fmul f0_4 f0_9) (fmul f0_3 f1_0)) (fmul f0_3 f0_9) = f0_93.
Proof.
  intros Hd He Hcs Hs Ht Ha Hy. split; [|reflexivity].
  rewrite (confidence_score_source_loaded _ _ _ Hd He).
  rewrite Hcs. cbn [bind]. rewrite Hs. cbn [bind].
  assert (Htr : truthy (PDict source_data) = true).
  { destruct source_data; [discriminate|reflexivity]. }
  rewrite Htr. cbn [negb].
  unfold score_source, weighted_sum, recency_score, years_old, py_get.
  rewrite Ht, Ha, Hy. reflexivity.
Qed.

Lemma primary_academic_current_year_score_witness :
  confidence_score_source
    (disk (source_doc (source "primary" "academic" 2025 "Prices rise"))) input_json
  = Ret (PFloat f0_93).
Proof.
  apply (primary_academic_current_year_score
           (disk (source_doc (source "primary" "academic" 2025 "Prices rise")))
           input_json
           (source_doc (source "primary" "academic" 2025 "Prices rise"))
           (PDict [("source", source "primary" "academic" 2025 "Prices rise")])
           [("type", PStr "primary"); ("year", PInt 2025);
            ("authority", PStr "academic"); ("content", PStr "Prices rise")]);
    reflexivity.
Defined.

(** Another way out of the scorer: a year so large that the quotient by
    5 does not fit a float makes the division raise. *)
Lemma confidence_score_source_overflow :
  confidence_score_source
    (disk (source_doc (PDict [("type", PStr "primary"); ("year", PInt (10 ^ 400))])))
    input_json
  = Raise OverflowError.
Proof. vm_compute. reflexivity. Qed.

(** *** Component 2: the query classifier *)

Lemma count_technical_spec (kws : list string) :
  count_technical (map PStr kws) = Ret (Spec.keyword_signal kws).
Proof.
  unfold Spec.keyword_signal.
  induction kws as [|kw kws IH]; [reflexivity|].
  cbn [map count_technical py_lower bind filter]. rewrite IH. cbn [bind].
  f_equal. unfold Spec.is_technical_term, in_terms, technical_terms.
  cbn [existsb]. rewrite orb_false_r, !orb_assoc.
  destruct (_ || _ || _ || _)%bool; cbn [List.length]; lia.
Qed.

Lemma domains_spec (d : string) :
  table_get domains (PStr d) 0 = Ret (Spec.domain_weight d).
Proof.
  unfold table_get, domains, Spec.domain_weight. cbn [assoc].
  repeat match goal with
         | |- context [String.eqb d ?k] =>
             destruct (String.eqb_spec d k); [subst d; reflexivity|]
         end.
  reflexivity.
Qed.

Lemma urgency_spec (u : string) :
  table_get urgency_modifier (PStr u) 0 = Ret (Spec.urgency_signal u).
Proof.
  unfold table_get, urgency_modifier, Spec.urgency_signal. cbn [assoc].
  repeat match goal with
         | |- context [String.eqb u ?k] =>
             destruct (String.eqb_spec u k); [subst u; reflexivity|]
         end.
  reflexivity.
Qed.

Lemma decision_rules_light (score : Z) : decision_rules score = "light" <-> score <= 1.
Proof.
  unfold decision_rules.
  destruct (Z.leb_spec score 1); [|destruct (Z.leb_spec score 3)];
    split; intros; try reflexivity; try discriminate; lia.
Qed.

Lemma decision_rules_moderate (score : Z) :
  decision_rules score = "moderate" <-> 2 <= score <= 3.
Proof.
  unfold decision_rules.
  destruct (Z.leb_spec score 1); [|destruct (Z.leb_spec score 3)];
    split; intros; try reflexivity; try discriminate; lia.
Qed.

Lemma decision_rules_deep (score : Z) : decision_rules score = "deep" <-> 4 <= score.
Proof.
  unfold decision_rules.
  destruct (Z.leb_spec score 1); [|destruct (Z.leb_spec score 3)];
    split; intros; try reflexivity; try discriminate; lia.
Qed.

(** C9: on a non-empty query record whose keywords are texts and whose
    domain and urgency are texts (absent fields take their defaults),
    the complexity computed by [decision_rule_engine] is the
    specification's sum of keyword count, domain weight and urgency
    modifier, and the answer is ['light'] iff the score is at most 1,
    ['moderate'] iff it is 2 or 3, ['deep'] iff it is at least 4. *)
Theorem decision_rule_engine_spec
  (w : world) (file_path data dr query : pyval)
  (keywords : list string) (domain urgency : string) :
  read_input_file w file_path = Ret data ->
  py_contains "error" data = Ret false ->
  py_get data "decision_rule" (PDict []) = Ret dr ->
  py_get dr "query" (PDict []) = Ret query ->
  truthy query = true ->
  py_get query "keywords" (PList []) = Ret (PList (map PStr keywords)) ->
  py_get query "domain" (PStr "general") = Ret (PStr domain) ->
  py_get query "urgency" (PStr "normal") = Ret (PStr urgency) ->
  let score := Spec.complexity keywords domain urgency in
  complexity_score query = Ret score /\
  (decision_rule_engine w file_path = Ret (PStr "light") <-> score <= 1) /\
  (decision_rule_engine w file_path = Ret (PStr "moderate") <-> 2 <= score <= 3) /\
  (decision_rule_engine w file_path = Ret (PStr "deep") <-> 4 <= score).
Proof.
  intros Hd He Hdr Hq Ht Hk Hdom Hu score.
  assert (Hc : complexity_score query = Ret score).
  { unfold complexity_score. rewrite Hk. cbn [bind py_iter].
    rewrite count_technical_spec. cbn [bind]. rewrite Hdom. cbn [bind].
    rewrite domains_spec. cbn [bind]. rewrite Hu. cbn [bind].
    rewrite urgency_spec. reflexivity. }
  assert (Hr : decision_rule_engine w file_path = Ret (PStr (decision_rules score))).
  { rewrite (decision_rule_engine_loaded _ _ _ Hd He).
    rewrite Hdr. cbn [bind]. rewrite Hq. cbn [bind]. rewrite Ht. cbn [negb].
    rewrite Hc. reflexivity. }
  split; [exact Hc|]. rewrite Hr.
  assert (Hinj : forall m : string,
             Ret (PStr (decision_rules score)) = Ret (PStr m)
             <-> decision_rules score = m).
  { intros m. split; intros H; [now injection H | now rewrite H]. }
  rewrite !Hinj.
  split; [apply decision_rules_light|].
  split; [apply decision_rules_moderate | apply decision_rules_deep].
Qed.

Lemma decision_rule_engine_spec_witness :
  Spec.complexity ["algorithm"] "science" "high" = 2 /\
  decision_rule_engine (disk (query_doc ["algorithm"] "science" "high")) input_json
  = Ret (PStr "moderate").
Proof.
  split; [reflexivity|].
  apply (decision_rule_engine_spec
           (disk (query_doc ["algorithm"] "science" "high")) input_json
           (query_doc ["algorithm"] "science" "high")
           (PDict [("query",
                    PDict [("keywords", PList (map PStr ["algorithm"]));
                           ("domain", PStr "science"); ("urgency", PStr "high")])])
           (PDict [("keywords", PList (map PStr ["algorithm"]));
                   ("domain", PStr "science"); ("urgency", PStr "high")])
           ["algorithm"] "science" "high");
    try reflexivity.
  cbv. split; discriminate.
Defined.

(** *** Component 3: the consensus loop never gets a score *)

(** The scorer opens its argument as a file: handed a record, [open]
    raises [TypeError], which [read_input_file] does not handle. *)
Lemma scorer_rejects_record (w : world) (temp_source : pyval) :
  confidence_score_source w (scorer_argument temp_source) = Raise TypeError.
Proof. reflexivity. Qed.

Lemma high_conf_sources_raises (w : world) (s : pyval) (rest : list pyval) :
  exists e, high_conf_sources w (s :: rest) = Raise e.
Proof.
  cbn [high_conf_sources]. destruct (py_copy s) as [t|e]; cbn [bind].
  - rewrite scorer_rejects_record. now exists TypeError.
  - now exists e.
Qed.

Lemma py_iter_truthy (sources : pyval) (items : list pyval) :
  truthy sources = true -> py_iter sources = Ret items -> items <> [].
Proof.
  destruct sources as [| | | |s|l|d]; cbn; intros Ht Hi; try discriminate.
  - injection Hi as <-. destruct s; [discriminate|cbn; discriminate].
  - injection Hi as <-. destruct l; [discriminate|discriminate].
  - injection Hi as <-. destruct d; [discriminate|cbn; discriminate].
Qed.

(** C1: the specification says that [evaluate_consensus], given a claim
    and a list of sources that are both non-empty, returns a verdict or a
    condition text and never raises. The code raises on every such
    query: the loop passes a record where the scorer expects a file
    path. *)
Theorem evaluate_consensus_raises
  (w : world) (file_path data consensus_data claim sources : pyval) :
  read_input_file w file_path = Ret data ->
  py_contains "error" data = Ret false ->
  py_get data "consensus_eval" (PDict []) = Ret consensus_data ->
  py_get consensus_data "claim" (PStr "") = Ret claim ->
  py_get consensus_data "sources" (PList []) = Ret sources ->
  truthy claim = true ->
  truthy sources = true ->
  exists e, evaluate_consensus w file_path = Raise e.
Proof.
  intros Hd He Hc Hcl Hs Htc Hts. rewrite (evaluate_consensus_loaded _ _ _ Hd He).
  rewrite Hc. cbn [bind]. rewrite Hcl. cbn [bind]. rewrite Hs. cbn [bind].
  rewrite Htc, Hts. cbn [negb orb].
  destruct (py_iter sources) as [items|e] eqn:Hi; cbn [bind]; [|now exists e].
  apply py_iter_truthy in Hi; [|assumption].
  destruct items as [|src rest]; [congruence|].
  destruct (high_conf_sources_raises w src rest) as [e Hr].
  rewrite Hr. now exists e.
Qed.

Lemma evaluate_consensus_raises_witness :
  exists e,
    evaluate_consensus (disk (consensus_doc "prices rise" [good_source; weak_source]))
      input_json = Raise e.
Proof.
  apply (evaluate_consensus_raises
           (disk (consensus_doc "prices rise" [good_source; weak_source])) input_json
           (consensus_doc "prices rise" [good_source; weak_source])
           (PDict [("claim", PStr "prices rise");
                   ("sources", PList [good_source; weak_source])])
           (PStr "prices rise") (PList [good_source; weak_source]));
    reflexivity.
Defined.

(** On a document that carries the four sections, the driver prints the
    score and the analysis mode and then stops on the exception. *)
Lemma run_framework_stops :
  run_framework (disk full_doc) input_json
  = ([("Confidence Score:", PFloat f0_93); ("Analysis Mode:", PStr "moderate")],
     Raise TypeError).
Proof. vm_compute. reflexivity. Qed.

(** C4: with no source at the 0.7 gate the answer should be
    ['no_consensus']. The only source here scores 0.18, below the gate;
    lines 116-117 would answer ['no_consensus'] on an empty selection,
    but the code raises before. *)
Theorem no_high_confidence_source_raises :
  (exists x, score_source weak_source = Ret (PFloat x) /\ fle f0_7 x = false) /\
  (forall claim, consensus_of claim [] = Ret (PStr "no_consensus")) /\
  evaluate_consensus (disk (consensus_doc "prices rise" [weak_source])) input_json
  = Raise TypeError.
Proof.
  split; [|split; reflexivity].
  eexists. split; [reflexivity|]. reflexivity.
Qed.

(** *** Component 3: the tally and the verdict *)

Lemma tally_step_oppose (claim : pyval) (counts counts' : Z * Z) (src : pyval) :
  tally_step claim counts src = Ret counts' -> snd counts' = snd counts.
Proof.
  unfold tally_step. intros H.
  inv_bind H as c Hc. inv_bind H as content Hcontent. inv_bind H as cl Hcl.
  destruct (str_in cl content) eqn:Hs.
  - injection H as <-. reflexivity.
  - rewrite Hcl in H. cbn [bind] in H.
    destruct (str_in ("not " ++ cl) content) eqn:Hn.
    + apply str_in_app in Hn. congruence.
    + injection H as <-. reflexivity.
Qed.

Lemma tally_oppose (claim : pyval) (l : list pyval) (counts counts' : Z * Z) :
  tally claim counts l = Ret counts' -> snd counts' = snd counts.
Proof.
  revert counts. induction l as [|src l IH]; cbn [tally]; intros counts H.
  - injection H as <-. reflexivity.
  - inv_bind H as counts1 Hstep. apply IH in H.
    apply tally_step_oppose in Hstep. congruence.
Qed.

Lemma tally_step_support (claim : pyval) (counts counts' : Z * Z) (src : pyval) :
  tally_step claim counts src = Ret counts' -> fst counts <= fst counts'.
Proof.
  unfold tally_step. intros H.
  inv_bind H as c Hc. inv_bind H as content Hcontent. inv_bind H as cl Hcl.
  destruct (str_in cl content).
  - injection H as <-. cbn. lia.
  - rewrite Hcl in H. cbn [bind] in H.
    destruct (str_in ("not " ++ cl) content); injection H as <-; cbn; lia.
Qed.

Lemma tally_support (claim : pyval) (l : list pyval) (counts counts' : Z * Z) :
  tally claim counts l = Ret counts' -> fst counts <= fst counts'.
Proof.
  revert counts. induction l as [|src l IH]; cbn [tally]; intros counts H.
  - injection H as <-. lia.
  - inv_bind H as counts1 Hstep. apply IH in H.
    apply tally_step_support in Hstep. lia.
Qed.

(** The second half of C2 holds of the loop: a source that contains
    neither text leaves both counts as they are. *)
Lemma tally_step_neither (claim content : string) (src : pyval) (counts : Z * Z) :
  py_get src "content" (PStr "") = Ret (PStr content) ->
  str_in (lower claim) (lower content) = false ->
  str_in ("not " ++ lower claim) (lower content) = false ->
  tally_step (PStr claim) counts src = Ret counts.
Proof.
  intros Hc Hs Hn. unfold tally_step. rewrite Hc. cbn [bind py_lower].
  now rewrite Hs, Hn.
Qed.

(** C2: a retained source whose text contains ["not " + claim] should
    be counted as opposing. On its own, the loop of lines 122-127 counts
    it as supporting, because the support test is tried first; and
    [evaluate_consensus] as a whole raises before the tally. *)
Theorem denying_source_counted_as_support :
  tally_step (PStr "prices rise") (0, 0) denying_source = Ret (1, 0) /\
  evaluate_consensus (disk (consensus_doc "prices rise" [denying_source])) input_json
  = Raise TypeError.
Proof. split; reflexivity. Qed.

Lemma verdict_unanimous (s : Z) :
  0 <= s ->
  verdict s 0 = Ret (PStr (if s =? 0 then "no_consensus" else "supported")).
Proof.
  intros Hs. unfold verdict. rewrite Z.add_0_r.
  destruct (s =? 0) eqn:E; [reflexivity|].
  apply Z.eqb_neq in E.
  unfold py_truediv, arith. cbn [as_num].
  rewrite int_true_div_self by lia. reflexivity.
Qed.

(** Whatever sources are retained, lines 116-138 do not answer
    ['disputed']. *)
Lemma consensus_of_not_disputed (claim : pyval) (high_conf : list pyval) :
  consensus_of claim high_conf <> Ret (PStr "disputed").
Proof.
  unfold consensus_of. destruct high_conf as [|src l]; [discriminate|].
  destruct (tally claim (0, 0) (src :: l)) as [[s o]|e] eqn:Ht; cbn [bind fst snd];
    [|discriminate].
  pose proof (tally_oppose _ _ _ _ Ht) as Ho.
  pose proof (tally_support _ _ _ _ Ht) as Hs. cbn in Ho, Hs. subst o.
  rewrite verdict_unanimous by assumption.
  destruct (s =? 0); discriminate.
Qed.

(** C5: one source at the gate that states the claim should give
    ['supported']. The source scores 0.93 and lines 116-138 would answer
    ['supported'] on it, but the code raises before. *)
Theorem single_supporting_source_raises :
  score_source good_source = Ret (PFloat f0_93) /\
  high_confidence (PFloat f0_93) = Ret true /\
  consensus_of (PStr "prices rise") [good_source] = Ret (PStr "supported") /\
  evaluate_consensus (disk (consensus_doc "prices rise" [good_source])) input_json
  = Raise TypeError.
Proof. repeat split; reflexivity. Qed.

(** C3, counterexample: a record whose top-level ["error"] entry is the
    text ['disputed'] makes [evaluate_consensus] return ['disputed'],
    since the entry is handed back as the loader's message. *)
Lemma evaluate_consensus_returns_disputed :
  evaluate_consensus (disk (PDict [("error", PStr "disputed")])) input_json
  = Ret (PStr "disputed").
Proof. reflexivity. Qed.

(** C3, amended: for every input record without a top-level ["error"]
    entry, [evaluate_consensus] never returns ['disputed']. The reasons
    are the claim's: a text that contains ["not " + claim] contains the
    claim, the support test comes first, so the tally leaves the oppose
    count where it was, and the retained sources never yield
    ['disputed']. The only way to the answer ['disputed'] is a record
    that carries it as its ["error"] entry. *)
Theorem evaluate_consensus_never_disputed :
  (forall c s : string, str_in ("not " ++ c) s = true -> str_in c s = true) /\
  (forall claim l counts counts',
      tally claim counts l = Ret counts' -> snd counts' = snd counts) /\
  (forall claim high_conf, consensus_of claim high_conf <> Ret (PStr "disputed")) /\
  (forall w file_path data,
      read_input_file w file_path = Ret data ->
      py_contains "error" data = Ret false ->
      evaluate_consensus w file_path <> Ret (PStr "disputed")) /\
  (forall w file_path,
      evaluate_consensus w file_path = Ret (PStr "disputed") ->
      exists data,
        read_input_file w file_path = Ret data /\
        py_getitem data "error" = Ret (PStr "disputed")).
Proof.
  assert (Hmain : forall w file_path data,
             read_input_file w file_path = Ret data ->
             py_contains "error" data = Ret false ->
             evaluate_consensus w file_path <> Ret (PStr "disputed")).
  2: { repeat split.
       - intros c s. apply str_in_app.
       - intros claim l counts counts'. apply tally_oppose.
       - apply consensus_of_not_disputed.
       - exact Hmain.
       - intros w file_path H.
         destruct (read_input_file w file_path) as [data|e] eqn:Hd;
           [|unfold evaluate_consensus in H; rewrite Hd in H; discriminate].
         destruct (py_contains "error" data) as [[]|e] eqn:He.
         + exists data. split; [reflexivity|].
           unfold evaluate_consensus in H. rewrite Hd in H. cbn [bind] in H.
           rewrite He in H. exact H.
         + now apply (Hmain w file_path data) in H.
         + unfold evaluate_consensus in H. rewrite Hd in H. cbn [bind] in H.
           rewrite He in H. discriminate. }
  - intros w file_path data Hd He. rewrite (evaluate_consensus_loaded _ _ _ Hd He).
    destruct (py_get data "consensus_eval" (PDict [])) as [cd|e]; cbn [bind];
      [|discriminate].
    destruct (py_get cd "claim" (PStr "")) as [claim|e]; cbn [bind]; [|discriminate].
    destruct (py_get cd "sources" (PList [])) as [sources|e]; cbn [bind];
      [|discriminate].
    destruct (negb (truthy claim) || negb (truthy sources))%bool; [discriminate|].
    destruct (py_iter sources) as [items|e]; cbn [bind]; [|discriminate].
    destruct (high_conf_sources w items) as [hc|e]; cbn [bind]; [|discriminate].
    apply consensus_of_not_disputed.
Qed.

Lemma evaluate_consensus_never_disputed_witness :
  evaluate_consensus (disk (consensus_doc "prices rise" [denying_source])) input_json
  <> Ret (PStr "disputed").
Proof.
  destruct evaluate_consensus_never_disputed as (_ & _ & _ & H & _).
  apply (H (disk (consensus_doc "prices rise" [denying_source])) input_json
           (consensus_doc "prices rise" [denying_source]));
    reflexivity.
Defined.

(** *** Component 4: the trend and the conclusion *)

Lemma positive_outcomes_spec (observations : list string) :
  positive_outcomes (map PStr observations) = Ret (Spec.increase_count observations).
Proof.
  unfold Spec.increase_count.
  induction observations as [|o os IH]; [reflexivity|].
  cbn [map positive_outcomes py_lower bind filter]. rewrite IH. cbn [bind].
  f_equal. unfold Spec.mentions_increase.
  destruct (str_in "increase" (lower o)); cbn [List.length]; lia.
Qed.

Lemma increase_count_bounds (observations : list string) :
  0 <= Spec.increase_count observations <= Z.of_nat (List.length observations).
Proof.
  unfold Spec.increase_count.
  pose proof (filter_length_le Spec.mentions_increase observations). lia.
Qed.

(** Line 174 on counts: the trend is ["likely increases"] exactly when
    the positive outcomes are more than half of the observations. *)
Lemma trend_of_majority (positive total : Z) :
  0 <= positive <= total -> 0 < total < 2 ^ 53 ->
  trend_of positive total
  = Ret (if total <? 2 * positive then "likely increases" else "may not increase").
Proof.
  intros Hp Ht. unfold trend_of, py_truediv, arith. cbn [as_num].
  unfold int_true_div.
  destruct (Z.eqb_spec total 0) as [|_]; [lia|].
  destruct positive as [|pa|pa]; [| |lia].
  - destruct total as [|pb|pb]; try lia. reflexivity.
  - destruct total as [|pb|pb]; try lia. cbn [raw_int].
    destruct (SFdiv_vs_half pa pb ltac:(lia)) as (mf & ef & -> & Hcmp).
    cbn [bind]. unfold py_gt, py_lt. cbn [as_num bind].
    now rewrite Hcmp.
Qed.

Lemma trend_spec (observations : list string) :
  observations <> [] ->
  Z.of_nat (List.length observations) < 2 ^ 53 ->
  (p <- positive_outcomes (map PStr observations) ;;
   trend_of p (Z.of_nat (List.length (map PStr observations))))
  = Ret (Spec.trend observations).
Proof.
  intros Hne Hlen. rewrite positive_outcomes_spec. cbn [bind].
  rewrite length_map.
  pose proof (increase_count_bounds observations) as Hc.
  rewrite trend_of_majority; [reflexivity|lia|].
  destruct observations; [contradiction|]. cbn [List.length] in *. lia.
Qed.

(** C8, counterexample: on the specification's own example the
    conclusion does not contain the problem text: the problem is
    lowercased before it is inserted. *)
Lemma conclusion_lowercases_problem :
  hybrid_reasoning_engine (disk oil_doc) input_json
  = Ret (PStr "Supply and demand govern prices. Data suggests will oil prices rise? likely increases.")
  /\ str_in "Will oil prices rise?"
       "Supply and demand govern prices. Data suggests will oil prices rise? likely increases."
     = false.
Proof. split; reflexivity. Qed.

(** C8, amended: when the first data point has domain ['economics'] and
    the problem is an ASCII text that contains ["price"]
    case-insensitively, the conclusion embeds the problem text with
    [A]..[Z] lowercased, and the trend phrase; and for
    every query with at least one data point (and fewer than [2^53]),
    the trend phrase is ["likely increases"] exactly when the
    observations that mention an increase are more than half of all
    observations, and ["may not increase"] otherwise. *)
Theorem hybrid_reasoning_engine_trend :
  (forall observations : list string,
      observations <> [] ->
      Z.of_nat (List.length observations) < 2 ^ 53 ->
      (p <- positive_outcomes (map PStr observations) ;;
       trend_of p (Z.of_nat (List.length (map PStr observations))))
      = Ret (Spec.trend observations)) /\
  (forall w file_path data rd problem points observations,
      read_input_file w file_path = Ret data ->
      py_contains "error" data = Ret false ->
      py_get data "hybrid_reasoning" (PDict []) = Ret rd ->
      py_get rd "problem" (PStr "") = Ret (PStr problem) ->
      py_get rd "data" (PList []) = Ret (PList points) ->
      domain_of (PList points) = Ret (PStr "economics") ->
      observations_of points = Ret (map PStr observations) ->
      observations <> [] ->
      Z.of_nat (List.length observations) < 2 ^ 53 ->
      isascii problem = true ->
      str_in "price" (lower problem) = true ->
      let conclusion :=
        "Supply and demand govern prices. Data suggests "
        ++ lower problem ++ " " ++ Spec.trend observations ++ "." in
      hybrid_reasoning_engine w file_path = Ret (PStr conclusion) /\
      str_in (lower problem) conclusion = true /\
      str_in (Spec.trend observations) conclusion = true).
Proof.
  split; [exact trend_spec|].
  intros w file_path data rd problem points observations
    Hd He Hrd Hp Hpts Hdom Hobs Hne Hlen _ Hprice conclusion.
  split; [|split].
  - rewrite (hybrid_reasoning_engine_loaded _ _ _ Hd He). rewrite Hrd. cbn [bind].
    rewrite Hp. cbn [bind]. rewrite Hpts. cbn [bind].
    assert (Htr : truthy (PStr problem) = true).
    { destruct problem; [discriminate Hprice|reflexivity]. }
    rewrite Htr. cbn [negb]. rewrite Hdom. cbn [bind py_iter table_get].
    rewrite Hobs. cbn [bind].
    pose proof (increase_count_bounds observations) as Hc.
    destruct observations as [|o os]; [contradiction|].
    cbn [map]. change (PStr o :: map PStr os) with (map PStr (o :: os)).
    rewrite positive_outcomes_spec. cbn [bind]. cbv zeta. rewrite length_map.
    rewrite trend_of_majority; [|lia|cbn [List.length] in *; lia].
    cbn [bind]. unfold conclude. cbn [eq_str py_lower bind String.eqb].
    rewrite Hprice. reflexivity.
  - unfold conclusion.
    apply (str_in_middle "Supply and demand govern prices. Data suggests ").
  - unfold conclusion.
    do 3 apply str_in_app_r. apply prefix_str_in, prefix_app_refl.
Qed.

Lemma hybrid_reasoning_engine_trend_witness :
  hybrid_reasoning_engine (disk oil_doc) input_json
  = Ret (PStr ("Supply and demand govern prices. Data suggests "
               ++ "will oil prices rise?" ++ " " ++ "likely increases" ++ ".")).
Proof.
  destruct hybrid_reasoning_engine_trend as [_ H].
  apply (H (disk oil_doc) input_json oil_doc
           (PDict [("problem", PStr "Will oil prices rise?"); ("data", PList oil_points)])
           "Will oil prices rise?" oil_points
           ["Demand increase in Asia"; "Supply cut announced"; "Increase in shipping costs"]);
    try reflexivity; discriminate.
Defined.

(** ** Further properties of the components *)

Import Readings.

(** *** The loader's conditions reach every component *)

(** The four entry points, to speak of all of them at once. *)
Lemma components_share_loader (w : world) (file_path : pyval) (e : exn) :
  read_input_file w file_path = Raise e ->
  confidence_score_source w file_path = Raise e /\
  decision_rule_engine w file_path = Raise e /\
  evaluate_consensus w file_path = Raise e /\
  hybrid_reasoning_engine w file_path = Raise e.
Proof.
  intros H. unfold confidence_score_source, decision_rule_engine,
    evaluate_consensus, hybrid_reasoning_engine. rewrite H. repeat split.
Qed.

Lemma error_entry_returned (w : world) (file_path : pyval)
  (d : list (string * pyval)) (v : pyval) :
  read_input_file w file_path = Ret (PDict d) ->
  assoc "error" d = Some v ->
  confidence_score_source w file_path = Ret v /\
  decision_rule_engine w file_path = Ret v /\
  evaluate_consensus w file_path = Ret v /\
  hybrid_reasoning_engine w file_path = Ret v.
Proof.
  intros H Hv. unfold confidence_score_source, decision_rule_engine,
    evaluate_consensus, hybrid_reasoning_engine. rewrite H.
  cbn [bind py_contains py_getitem]. rewrite Hv. repeat split.
Qed.

Lemma run_framework_same (w : world) (file_path v : pyval) :
  confidence_score_source w file_path = Ret v ->
  decision_rule_engine w file_path = Ret v ->
  evaluate_consensus w file_path = Ret v ->
  hybrid_reasoning_engine w file_path = Ret v ->
  run_framework w file_path = (map (fun l => (l, v)) labels, Ret tt).
Proof.
  intros H1 H2 H3 H4. unfold run_framework. now rewrite H1, H2, H3, H4.
Qed.

(** X1: when the file is missing or is not JSON, the message of the
    loader ([File not found], [Invalid JSON format]) is what each of the
    four components returns, and the driver prints it four times, once
    under each of its labels. *)
Theorem loader_condition_reported (w : world) (p msg : string) :
  (open_path w p = Raise FileNotFoundError /\ msg = "File not found") \/
  (open_path w p = Raise JSONDecodeError /\ msg = "Invalid JSON format") ->
  confidence_score_source w (PStr p) = Ret (PStr msg) /\
  decision_rule_engine w (PStr p) = Ret (PStr msg) /\
  evaluate_consensus w (PStr p) = Ret (PStr msg) /\
  hybrid_reasoning_engine w (PStr p) = Ret (PStr msg) /\
  run_framework w (PStr p) = (map (fun l => (l, PStr msg)) labels, Ret tt).
Proof.
  intros H.
  assert (Hr : read_input_file w (PStr p) = Ret (PDict [("error", PStr msg)])).
  { unfold read_input_file, open_and_load. destruct H as [[-> ->]|[-> ->]]; reflexivity. }
  destruct (error_entry_returned w (PStr p) _ (PStr msg) Hr eq_refl)
    as (H1 & H2 & H3 & H4).
  repeat split; try assumption. now apply run_framework_same.
Qed.

Lemma loader_condition_reported_witness :
  run_framework (disk full_doc) (PStr "missing.json")
  = (map (fun l => (l, PStr "File not found")) labels, Ret tt).
Proof.
  apply (loader_condition_reported (disk full_doc) "missing.json" "File not found").
  left. split; reflexivity.
Defined.

(** X2: an exception of [open] other than the two that
    [read_input_file] handles (a permission error, a directory in place
    of the file) is raised by each of the four components, and the driver
    stops on it before printing anything. *)
Theorem loader_exception_propagates (w : world) (p : string) (e : exn) :
  open_path w p = Raise e ->
  e <> FileNotFoundError -> e <> JSONDecodeError ->
  confidence_score_source w (PStr p) = Raise e /\
  decision_rule_engine w (PStr p) = Raise e /\
  evaluate_consensus w (PStr p) = Raise e /\
  hybrid_reasoning_engine w (PStr p) = Raise e /\
  run_framework w (PStr p) = ([], Raise e).
Proof.
  intros H Hf Hj.
  assert (Hr : read_input_file w (PStr p) = Raise e).
  { unfold read_input_file, open_and_load. rewrite H.
    destruct e; try reflexivity; contradiction. }
  destruct (components_share_loader w (PStr p) e Hr) as (H1 & H2 & H3 & H4).
  repeat split; try assumption. unfold run_framework. now rewrite H1.
Qed.

Lemma loader_exception_propagates_witness :
  run_framework (broken_disk (OtherError "PermissionError")) input_json
  = ([], Raise (OtherError "PermissionError")).
Proof.
  apply (loader_exception_propagates (broken_disk (OtherError "PermissionError"))
           "input.json" (OtherError "PermissionError"));
    [reflexivity | discriminate | discriminate].
Defined.



(** X4: a document that parses to something other than a JSON object
    (a list, a number, a text, [null], a boolean) makes every component
    raise [TypeError] or [AttributeError]. *)
Theorem non_object_document_raises (w : world) (file_path data : pyval) :
  read_input_file w file_path = Ret data ->
  (forall d, data <> PDict d) ->
  let raises c := c = Raise TypeError \/ c = Raise AttributeError in
  raises (confidence_score_source w file_path) /\
  raises (decision_rule_engine w file_path) /\
  raises (evaluate_consensus w file_path) /\
  raises (hybrid_reasoning_engine w file_path).
Proof.
  intros H Hd raises. unfold raises, confidence_score_source, decision_rule_engine,
    evaluate_consensus, hybrid_reasoning_engine. rewrite H. cbn [bind].
  destruct data as [| | | |s|l|d]; cbn [py_contains bind];
    try (repeat split; now left).
  - destruct (str_in "error" s); cbn [py_getitem py_get bind];
      repeat split; auto.
  - destruct (existsb _ l); cbn [py_getitem py_get bind]; repeat split; auto.
  - now destruct (Hd d).
Qed.

Lemma non_object_document_raises_witness :
  decision_rule_engine (disk (PList [PInt 1; PInt 2])) input_json = Raise TypeError \/
  decision_rule_engine (disk (PList [PInt 1; PInt 2])) input_json = Raise AttributeError.
Proof.
  apply (non_object_document_raises (disk (PList [PInt 1; PInt 2])) input_json
           (PList [PInt 1; PInt 2])); [reflexivity|discriminate].
Defined.

(** *** Missing sections *)

(** X5: on a JSON object without an [error] entry, a component whose
    own section is absent returns its own condition text, one per
    component, whatever the other sections hold. *)
Theorem missing_section_reported (w : world) (file_path : pyval)
  (d : list (string * pyval)) :
  read_input_file w file_path = Ret (PDict d) ->
  assoc "error" d = None ->
  (assoc "confidence_score" d = None ->
   confidence_score_source w file_path = Ret (PStr "No source data provided")) /\
  (assoc "decision_rule" d = None ->
   decision_rule_engine w file_path = Ret (PStr "No query data provided")) /\
  (assoc "consensus_eval" d = None ->
   evaluate_consensus w file_path = Ret (PStr "No claim or sources provided")) /\
  (assoc "hybrid_reasoning" d = None ->
   hybrid_reasoning_engine w file_path = Ret (PStr "No problem provided")).
Proof.
  intros H He.
  assert (Hc : py_contains "error" (PDict d) = Ret false)
    by (cbn [py_contains]; now rewrite He).
  repeat split; intros Hs.
  - rewrite (confidence_score_source_loaded _ _ _ H Hc). cbn [py_get]. now rewrite Hs.
  - rewrite (decision_rule_engine_loaded _ _ _ H Hc). cbn [py_get]. now rewrite Hs.
  - rewrite (evaluate_consensus_loaded _ _ _ H Hc). cbn [py_get]. now rewrite Hs.
  - rewrite (hybrid_reasoning_engine_loaded _ _ _ H Hc). cbn [py_get]. now rewrite Hs.
Qed.

Lemma missing_section_reported_witness :
  hybrid_reasoning_engine (disk (consensus_doc "prices rise" [good_source])) input_json
  = Ret (PStr "No problem provided").
Proof.
  destruct (missing_section_reported
              (disk (consensus_doc "prices rise" [good_source])) input_json
              [("consensus_eval",
                PDict [("claim", PStr "prices rise"); ("sources", PList [good_source])])]
              eq_refl eq_refl) as (_ & _ & _ & H).
  apply H. reflexivity.
Defined.

(** *** The consensus evaluator never gives a verdict *)

(** X6: on a loaded record without an [error] entry,
    [evaluate_consensus] has two outcomes only: the text reporting that
    the claim or the sources are missing, or an exception.  None of
    ['supported'], ['disputed'], ['no_consensus'] is ever returned. *)
Theorem evaluate_consensus_no_verdict (w : world) (file_path data : pyval) :
  read_input_file w file_path = Ret data ->
  py_contains "error" data = Ret false ->
  evaluate_consensus w file_path = Ret (PStr "No claim or sources provided") \/
  exists e, evaluate_consensus w file_path = Raise e.
Proof.
  intros Hd He. rewrite (evaluate_consensus_loaded _ _ _ Hd He).
  destruct (py_get data "consensus_eval" (PDict [])) as [cd|e]; cbn [bind]; [|right; now exists e].
  destruct (py_get cd "claim" (PStr "")) as [claim|e]; cbn [bind]; [|right; now exists e].
  destruct (py_get cd "sources" (PList [])) as [sources|e]; cbn [bind]; [|right; now exists e].
  destruct (negb (truthy claim) || negb (truthy sources))%bool eqn:Ht; [now left|right].
  apply orb_false_iff in Ht. destruct Ht as [_ Hts]. apply negb_false_iff in Hts.
  destruct (py_iter sources) as [items|e] eqn:Hitems; cbn [bind]; [|now exists e].
  pose proof (py_iter_truthy sources items Hts Hitems) as Hne.
  destruct items as [|src rest]; [contradiction|].
  destruct (high_conf_sources_raises w src rest) as [e Hr]. rewrite Hr. now exists e.
Qed.

Lemma evaluate_consensus_no_verdict_witness :
  evaluate_consensus (disk oil_doc) input_json
  = Ret (PStr "No claim or sources provided") \/
  exists e, evaluate_consensus (disk oil_doc) input_json = Raise e.
Proof.
  apply (evaluate_consensus_no_verdict (disk oil_doc) input_json oil_doc);
    reflexivity.
Defined.

(** *** The query classifier: bounds and ill-typed keywords *)

Lemma count_technical_bounds (items : list pyval) (c : Z) :
  count_technical items = Ret c -> 0 <= c <= Z.of_nat (List.length items).
Proof.
  revert c. induction items as [|kw rest IH]; cbn [count_technical]; intros c H.
  - injection H as <-. cbn. lia.
  - inv_bind H as l Hl. inv_bind H as n Hn. injection H as <-.
    specialize (IH n Hn). rewrite length_cons.
    match goal with |- context [if ?b then _ else _] => destruct b end; lia.
Qed.

Lemma domains_range (k : pyval) (v : Z) :
  table_get domains k 0 = Ret v -> 0 <= v <= 2.
Proof.
  intros H. apply table_get_cases in H. cbn in H.
  repeat destruct H as [H|H]; subst; try lia; contradiction.
Qed.

Lemma urgency_range (k : pyval) (v : Z) :
  table_get urgency_modifier k 0 = Ret v -> -1 <= v <= 1.
Proof.
  intros H. apply table_get_cases in H. cbn in H.
  repeat destruct H as [H|H]; subst; try lia; contradiction.
Qed.

(** X7: when the complexity score is computed, it lies between the
    number of technical keywords minus one and that number plus three,
    the number of technical keywords is at most the number of keywords,
    and the mode ['deep'] needs at least one technical keyword. *)
Theorem complexity_score_bounds (query_metadata : pyval) (n : Z) :
  complexity_score query_metadata = Ret n ->
  exists keywords items c,
    py_get query_metadata "keywords" (PList []) = Ret keywords /\
    py_iter keywords = Ret items /\
    count_technical items = Ret c /\
    0 <= c <= Z.of_nat (List.length items) /\
    c - 1 <= n <= c + 3 /\
    (decision_rules n = "deep" -> 1 <= c).
Proof.
  unfold complexity_score. intros H.
  inv_bind H as keywords Hk. inv_bind H as items Hi. inv_bind H as c Hc.
  inv_bind H as dom Hdom. inv_bind H as dw Hdw. inv_bind H as urgency Hu.
  inv_bind H as um Hum. injection H as <-.
  apply domains_range in Hdw. apply urgency_range in Hum.
  exists keywords, items, c. repeat split; try assumption;
    try (apply (count_technical_bounds items c Hc)); try lia.
  intros Hdeep. apply decision_rules_deep in Hdeep. lia.
Qed.

Lemma complexity_score_bounds_witness :
  exists keywords items c,
    py_get (PDict [("keywords", PList [PStr "Quantum"; PStr "tea"]);
                   ("urgency", PStr "high")]) "keywords" (PList []) = Ret keywords /\
    py_iter keywords = Ret items /\
    count_technical items = Ret c /\
    0 <= c <= Z.of_nat (List.length items) /\
    c - 1 <= 0 <= c + 3 /\
    (decision_rules 0 = "deep" -> 1 <= c).
Proof.
  apply (complexity_score_bounds
           (PDict [("keywords", PList [PStr "Quantum"; PStr "tea"]);
                   ("urgency", PStr "high")]) 0).
  reflexivity.
Defined.

Lemma count_technical_chars (s : string) : count_technical (chars s) = Ret 0.
Proof.
  induction s as [|c s IH]; [reflexivity|].
  cbn [chars count_technical py_lower lower bind]. rewrite IH. cbn [bind].
  unfold in_terms, technical_terms. cbn [existsb String.eqb].
  repeat match goal with
         | |- context [Ascii.eqb ?a ?b] => destruct (Ascii.eqb a b)
         end; reflexivity.
Qed.

(** X8: a [keywords] field that is a single text rather than a list
    of texts is read character by character, and no character is a
    technical term: the query is scored as if it had no keywords. *)
Theorem keywords_text_counts_nothing
  (query_metadata : pyval) (text : string) (domain urgency : pyval) :
  py_get query_metadata "keywords" (PList []) = Ret (PStr text) ->
  py_get query_metadata "domain" (PStr "general") = Ret domain ->
  py_get query_metadata "urgency" (PStr "normal") = Ret urgency ->
  complexity_score query_metadata
  = complexity_score (PDict [("domain", domain); ("urgency", urgency)]).
Proof.
  intros Hk Hd Hu. unfold complexity_score. rewrite Hk, Hd, Hu.
  cbn [bind py_iter]. rewrite count_technical_chars. reflexivity.
Qed.

Lemma keywords_text_counts_nothing_witness :
  complexity_score (PDict [("keywords", PStr "quantum"); ("domain", PStr "history")])
  = complexity_score (PDict [("domain", PStr "history"); ("urgency", PStr "normal")]).
Proof.
  apply (keywords_text_counts_nothing
           (PDict [("keywords", PStr "quantum"); ("domain", PStr "history")])
           "quantum" (PStr "history") (PStr "normal")); reflexivity.
Defined.

Lemma count_technical_non_text (items : list pyval) :
  Exists (fun kw => forall s, kw <> PStr s) items ->
  count_technical items = Raise AttributeError.
Proof.
  induction 1 as [kw rest Hkw|kw rest Hex IH]; cbn [count_technical].
  - destruct kw; try reflexivity. now destruct (Hkw s).
  - rewrite IH. destruct kw; reflexivity.
Qed.

(** X9: a keyword list with an entry that is not a text makes
    [decision_rule_engine] raise [AttributeError], wherever the entry
    stands in the list. *)
Theorem non_text_keyword_raises
  (w : world) (file_path data dr query : pyval) (items : list pyval) :
  read_input_file w file_path = Ret data ->
  py_contains "error" data = Ret false ->
  py_get data "decision_rule" (PDict []) = Ret dr ->
  py_get dr "query" (PDict []) = Ret query ->
  py_get query "keywords" (PList []) = Ret (PList items) ->
  Exists (fun kw => forall s, kw <> PStr s) items ->
  decision_rule_engine w file_path = Raise AttributeError.
Proof.
  intros Hd He Hdr Hq Hk Hex. rewrite (decision_rule_engine_loaded _ _ _ Hd He).
  rewrite Hdr. cbn [bind]. rewrite Hq. cbn [bind].
  assert (Ht : truthy query = true).
  { destruct query as [| | | | | |d]; try discriminate Hk. cbn in Hk.
    destruct d; [|reflexivity]. cbn in Hk. injection Hk as <-. inversion Hex. }
  rewrite Ht. cbn [negb]. unfold complexity_score. rewrite Hk. cbn [bind py_iter].
  now rewrite (count_technical_non_text items Hex).
Qed.

Lemma non_text_keyword_raises_witness :
  decision_rule_engine
    (disk (PDict [("decision_rule",
                   PDict [("query", PDict [("keywords", PList [PStr "tariff"; PInt 7])])])]))
    input_json
  = Raise AttributeError.
Proof.
  apply (non_text_keyword_raises _ input_json
           (PDict [("decision_rule",
                    PDict [("query", PDict [("keywords", PList [PStr "tariff"; PInt 7])])])])
           (PDict [("query", PDict [("keywords", PList [PStr "tariff"; PInt 7])])])
           (PDict [("keywords", PList [PStr "tariff"; PInt 7])])
           [PStr "tariff"; PInt 7]); try reflexivity.
  apply Exists_cons_tl, Exists_cons_hd. discriminate.
Defined.

(** *** Case *)

Lemma count_technical_lowered (ks1 ks2 : list string) :
  map lower ks1 = map lower ks2 ->
  count_technical (map PStr ks1) = count_technical (map PStr ks2).
Proof.
  revert ks2. induction ks1 as [|k1 ks1 IH]; intros [|k2 ks2] H;
    try discriminate H; [reflexivity|].
  cbn [map] in H. injection H as Hk Hks.
  cbn [map count_technical py_lower bind]. now rewrite Hk, (IH ks2 Hks).
Qed.

Lemma positive_outcomes_lowered (os1 os2 : list string) :
  map lower os1 = map lower os2 ->
  positive_outcomes (map PStr os1) = positive_outcomes (map PStr os2).
Proof.
  revert os2. induction os1 as [|o1 os1 IH]; intros [|o2 os2] H;
    try discriminate H; [reflexivity|].
  cbn [map] in H. injection H as Ho Hos.
  cbn [map positive_outcomes py_lower bind]. now rewrite Ho, (IH os2 Hos).
Qed.

(** X10: on ASCII text the three matches depend on the text only up to
    the case of its letters: two keyword lists, two claim and content
    pairs, or two observation lists that are equal once lowercased give
    the same keyword count, the same turn of the tally, and the same
    count of observations that mention an increase. *)
Theorem matching_ignores_case :
  (forall keywords1 keywords2 : list string,
      forallb isascii keywords1 = true -> forallb isascii keywords2 = true ->
      map lower keywords1 = map lower keywords2 ->
      count_technical (map PStr keywords1) = count_technical (map PStr keywords2)) /\
  (forall (claim1 claim2 content1 content2 : string) counts source1 source2,
      isascii claim1 = true -> isascii claim2 = true ->
      isascii content1 = true -> isascii content2 = true ->
      lower claim1 = lower claim2 -> lower content1 = lower content2 ->
      py_get source1 "content" (PStr "") = Ret (PStr content1) ->
      py_get source2 "content" (PStr "") = Ret (PStr content2) ->
      tally_step (PStr claim1) counts source1
      = tally_step (PStr claim2) counts source2) /\
  (forall observations1 observations2 : list string,
      forallb isascii observations1 = true -> forallb isascii observations2 = true ->
      map lower observations1 = map lower observations2 ->
      positive_outcomes (map PStr observations1)
      = positive_outcomes (map PStr observations2)).
Proof.
  repeat split.
  - intros ks1 ks2 _ _. apply count_technical_lowered.
  - intros claim1 claim2 content1 content2 counts source1 source2
      _ _ _ _ Hclaim Hcontent H1 H2.
    unfold tally_step. rewrite H1, H2. cbn [bind py_lower].
    now rewrite Hclaim, Hcontent.
  - intros os1 os2 _ _. apply positive_outcomes_lowered.
Qed.

Lemma matching_ignores_case_witness :
  count_technical (map PStr ["Quantum"; "TARIFF"; "tea"])
  = count_technical (map PStr ["quantum"; "tariff"; "TEA"]) /\
  tally_step (PStr "Prices RISE") (0, 0) good_source
  = tally_step (PStr "prices rise") (0, 0) (source "opinion" "blog" 2000 "PRICES RISE") /\
  positive_outcomes (map PStr ["Demand INCREASE"; "Supply cut"])
  = positive_outcomes (map PStr ["demand increase"; "SUPPLY CUT"]).
Proof.
  destruct matching_ignores_case as (Hk & Ht & Ho).
  split; [|split].
  - apply Hk; reflexivity.
  - apply (Ht "Prices RISE" "prices rise" "Prices rise" "PRICES RISE"); reflexivity.
  - apply Ho; reflexivity.
Defined.

(** *** The hybrid engine: no data, and the non-committal conclusion *)

Lemma py_iter_nil_falsy (v : pyval) : py_iter v = Ret [] -> truthy v = false.
Proof.
  destruct v as [| | | |s|l|d]; cbn; intros H; try discriminate.
  - destruct s; [reflexivity|discriminate].
  - now injection H as ->.
  - destruct d; [reflexivity|discriminate].
Qed.

(** X11: with a problem and no data points (the field absent, or an
    empty list, text or object), [hybrid_reasoning_engine] returns the
    insufficient-data sentence on the general principle. *)
Theorem no_data_is_insufficient
  (w : world) (file_path data rd problem data_points : pyval) :
  read_input_file w file_path = Ret data ->
  py_contains "error" data = Ret false ->
  py_get data "hybrid_reasoning" (PDict []) = Ret rd ->
  py_get rd "problem" (PStr "") = Ret problem ->
  truthy problem = true ->
  py_get rd "data" (PList []) = Ret data_points ->
  py_iter data_points = Ret [] ->
  hybrid_reasoning_engine w file_path
  = Ret (PStr "Based on General reasoning applies., insufficient data to conclude.").
Proof.
  intros Hd He Hrd Hp Ht Hdp Hi. rewrite (hybrid_reasoning_engine_loaded _ _ _ Hd He).
  rewrite Hrd. cbn [bind]. rewrite Hp. cbn [bind]. rewrite Hdp. cbn [bind].
  rewrite Ht. cbn [negb]. unfold domain_of. rewrite (py_iter_nil_falsy _ Hi).
  cbn [bind table_get assoc]. rewrite Hi. reflexivity.
Qed.

Lemma no_data_is_insufficient_witness :
  hybrid_reasoning_engine (disk (reasoning_doc "Will oil prices rise?" [])) input_json
  = Ret (PStr "Based on General reasoning applies., insufficient data to conclude.").
Proof.
  apply (no_data_is_insufficient _ input_json
           (reasoning_doc "Will oil prices rise?" [])
           (PDict [("problem", PStr "Will oil prices rise?"); ("data", PList [])])
           (PStr "Will oil prices rise?") (PList [])); reflexivity.
Defined.

Lemma trend_of_returns (observations : list string) :
  observations <> [] ->
  Z.of_nat (List.length observations) < 2 ^ 53 ->
  exists trend,
    trend_of (Spec.increase_count observations) (Z.of_nat (List.length observations))
    = Ret trend.
Proof.
  intros Hne Hlen. pose proof (increase_count_bounds observations) as Hc.
  rewrite trend_of_majority; [eauto|lia|].
  destruct observations; [contradiction|]. rewrite length_cons in *. lia.
Qed.

(** X12: with a problem text and data points, when the domain of the
    first point is not [economics] or the lowercased problem does not
    contain [price], the conclusion is the principle of that domain
    followed by the inconclusive sentence, with the problem as it was
    written; the observations play no part in it. *)
Theorem conclusion_inconclusive
  (w : world) (file_path data rd : pyval) (problem domain : string)
  (points : list pyval) (observations : list string) :
  read_input_file w file_path = Ret data ->
  py_contains "error" data = Ret false ->
  py_get data "hybrid_reasoning" (PDict []) = Ret rd ->
  py_get rd "problem" (PStr "") = Ret (PStr problem) ->
  problem <> "" ->
  py_get rd "data" (PList []) = Ret (PList points) ->
  domain_of (PList points) = Ret (PStr domain) ->
  observations_of points = Ret (map PStr observations) ->
  observations <> [] ->
  Z.of_nat (List.length observations) < 2 ^ 53 ->
  domain <> "economics" \/ str_in "price" (lower problem) = false ->
  hybrid_reasoning_engine w file_path
  = Ret (PStr (principle_of domain ++ " Data analysis inconclusive for "
               ++ problem ++ ".")).
Proof.
  intros Hd He Hrd Hp Hne Hpts Hdom Hobs Hone Hlen Hgate.
  rewrite (hybrid_reasoning_engine_loaded _ _ _ Hd He).
  rewrite Hrd. cbn [bind]. rewrite Hp. cbn [bind]. rewrite Hpts. cbn [bind].
  assert (Htr : truthy (PStr problem) = true).
  { destruct problem; [contradiction|reflexivity]. }
  rewrite Htr. cbn [negb]. rewrite Hdom. cbn [bind py_iter table_get].
  rewrite Hobs. cbn [bind].
  destruct (trend_of_returns observations Hone Hlen) as [trend Htrend].
  destruct observations as [|o os]; [contradiction|].
  cbn [map]. change (PStr o :: map PStr os) with (map PStr (o :: os)).
  rewrite positive_outcomes_spec. cbn [bind]. rewrite length_map, Htrend. cbn [bind].
  unfold conclude, principle_of. cbn [eq_str py_lower bind format].
  destruct (String.eqb_spec domain "economics") as [->|Hn]; [|reflexivity].
  destruct Hgate as [Hgate|Hgate]; [contradiction|]. now rewrite Hgate.
Qed.

Lemma conclusion_inconclusive_witness :
  hybrid_reasoning_engine
    (disk (reasoning_doc "Will It Rain?" [data_point "physics" "Pressure increase"]))
    input_json
  = Ret (PStr "Energy is conserved. Data analysis inconclusive for Will It Rain?.").
Proof.
  apply (conclusion_inconclusive _ input_json
           (reasoning_doc "Will It Rain?" [data_point "physics" "Pressure increase"])
           (PDict [("problem", PStr "Will It Rain?");
                   ("data", PList [data_point "physics" "Pressure increase"])])
           "Will It Rain?" "physics"
           [data_point "physics" "Pressure increase"] ["Pressure increase"]);
    try reflexivity; try discriminate.
  left. discriminate.
Defined.

(** *** The confidence score on a year that is not a number *)

(** X13: a source whose [year] is present but is not a number (a
    text such as ["2020"], [null], a list) makes
    [confidence_score_source] raise [TypeError]. *)
Theorem non_numeric_year_raises
  (w : world) (file_path data cs : pyval) (source_data : list (string * pyval))
  (year : pyval) :
  read_input_file w file_path = Ret data ->
  py_contains "error" data = Ret false ->
  py_get data "confidence_score" (PDict []) = Ret cs ->
  py_get cs "source" (PDict []) = Ret (PDict source_data) ->
  assoc "year" source_data = Some year ->
  as_num year = None ->
  confidence_score_source w file_path = Raise TypeError.
Proof.
  intros Hd He Hcs Hs Hy Hn. rewrite (confidence_score_source_loaded _ _ _ Hd He).
  rewrite Hcs. cbn [bind]. rewrite Hs. cbn [bind].
  assert (Htr : truthy (PDict source_data) = true).
  { destruct source_data; [discriminate|reflexivity]. }
  rewrite Htr. cbn [negb]. unfold score_source, weighted_sum. cbn [py_get bind].
  destruct (table_get source_types _ f0_3) as [ts|e] eqn:Ht.
  - cbn [bind py_mul py_add arith as_num num_to_float].
    unfold recency_score, years_old. cbn [py_get]. rewrite Hy.
    cbn [bind py_sub arith as_num]. now rewrite Hn.
  - cbn [bind]. f_equal.
    destruct (match assoc "type" source_data with Some x => x | None => PStr "opinion" end);
      cbn in Ht; congruence.
Qed.

Lemma non_numeric_year_raises_witness :
  confidence_score_source
    (disk (source_doc (PDict [("type", PStr "primary"); ("year", PStr "2020")])))
    input_json
  = Raise TypeError.
Proof.
  apply (non_numeric_year_raises _ input_json
           (source_doc (PDict [("type", PStr "primary"); ("year", PStr "2020")]))
           (PDict [("source", PDict [("type", PStr "primary"); ("year", PStr "2020")])])
           [("type", PStr "primary"); ("year", PStr "2020")] (PStr "2020"));
    reflexivity.
Defined.

(** *** The driver *)


(** *** The recency of a source dated in the future *)

Lemma flt_pow2_finite (E : Z) (m : positive) (e : Z) :
  flt (S754_finite false 4503599627370496 E) (S754_finite false m e) =
  ((E <? e) || ((e =? E) && (2 ^ 52 <? Z.pos m)))%bool.
Proof.
  unfold flt, SFltb, SFcompare.
  destruct (Z.compare_spec E e) as [He|He|He].
  - subst e. rewrite Z.ltb_irrefl, Z.eqb_refl. cbn [orb andb].
    change (Pos.compare_cont Eq 4503599627370496 m) with
      (Z.pos 4503599627370496 ?= Z.pos m).
    unfold Z.ltb. change (2 ^ 52) with (Z.pos 4503599627370496).
    destruct (Z.pos 4503599627370496 ?= Z.pos m); reflexivity.
  - destruct (Z.ltb_spec E e); [reflexivity|lia].
  - destruct (Z.ltb_spec E e); [lia|].
    destruct (Z.eqb_spec e E); [lia|reflexivity].
Qed.

Lemma round_normal_above_one (r1 : shr_record) (e1 : Z) :
  2 ^ 52 <= shr_m r1 < 2 ^ 53 ->
  -52 < e1 \/
  (e1 = -52 /\ 2 ^ 52 < round_nearest_even (shr_m r1) (loc_of_shr_record r1)) ->
  flt f1_0 (round_normal false r1 e1) = true.
Proof.
  intros Hb H. unfold round_normal, f1_0.
  pose proof (round_nearest_even_bounds (shr_m r1) (loc_of_shr_record r1)) as Hr.
  set (m2 := round_nearest_even (shr_m r1) (loc_of_shr_record r1)) in *.
  destruct (m2 <? 2 ^ 53).
  - destruct (e1 <=? 971); [|reflexivity].
    rewrite flt_pow2_finite, Z2Pos.id by lia.
    destruct (Z.ltb_spec (-52) e1); [reflexivity|].
    destruct (Z.eqb_spec e1 (-52)); [|lia].
    destruct (Z.ltb_spec (2 ^ 52) m2); [reflexivity|lia].
  - destruct (e1 + 1 <=? 971); [|reflexivity].
    rewrite flt_pow2_finite.
    destruct (Z.ltb_spec (-52) (e1 + 1)); [reflexivity|lia].
Qed.

Lemma iter_xO_pow (m d : positive) :
  Z.pos (Pos.iter xO m d) = Z.pos m * 2 ^ Z.pos d.
Proof.
  induction d as [|d IH] using Pos.peano_ind.
  - cbn [Pos.iter]. rewrite Pos2Z.inj_xO. change (2 ^ 1) with 2. lia.
  - rewrite Pos.iter_succ, Pos2Z.inj_xO, IH, Pos2Z.inj_succ, Z.pow_succ_r by lia. lia.
Qed.

Lemma shl_align_spec (m : positive) (e e' : Z) :
  e' <= e -> Z.pos (fst (shl_align m e e')) = Z.pos m * 2 ^ (e - e').
Proof.
  intros H. unfold shl_align. destruct (e' - e) as [|d|d] eqn:Hd; cbn [fst]; try lia.
  - replace (e - e') with 0 by lia. lia.
  - rewrite iter_xO_pow. f_equal. f_equal. lia.
Qed.

Lemma Zdigits2_le (m k : Z) : 0 < m -> 0 <= k -> m < 2 ^ k -> Zdigits2 m <= k.
Proof.
  intros Hm Hk Hlt. pose proof (Zdigits2_spec m Hm) as [Hlo _].
  destruct (Z.le_gt_cases (Zdigits2 m) k) as [|Hgt]; [assumption|].
  assert (2 ^ k <= 2 ^ (Zdigits2 m - 1)) by (apply Z.pow_le_mono_r; lia). lia.
Qed.

(** The quotient by 5 of a non-zero integer below [2^1000] in magnitude
    is finite, with a full mantissa and an exponent of at least -55;
    from [2^1027] on it overflows. *)
Lemma SFdiv_by_5_range (s : bool) (p : positive) :
  let x := SFdiv prec emax (S754_finite s p 0) (S754_finite false 5 0) in
  (Z.pos p < 2 ^ 1000 ->
   exists mf ef, x = S754_finite s mf ef /\ 2 ^ 52 <= Z.pos mf /\ -55 <= ef) /\
  (2 ^ 1027 <= Z.pos p -> x = S754_infinity s).
Proof.
  cbv zeta. unfold SFdiv, SFdiv_core_binary.
  change (Zdigits2 5) with 3. rewrite xorb_false_r.
  pose proof (Zdigits2_spec (Z.pos p) ltac:(lia)) as Hd.
  pose proof (Zdigits2_ge (Z.pos p) 0 ltac:(lia) ltac:(lia)) as Hd1.
  set (d1 := Zdigits2 (Z.pos p)) in *.
  set (e' := Z.min (fexp prec emax (d1 + 0 - (3 + 0))) (0 - 0)).
  assert (He' : e' = Z.min (d1 - 56) 0).
  { unfold e', fexp, emin, prec, emax. lia. }
  set (sh := 0 - 0 - e'). assert (Hs : 0 <= sh) by (unfold sh; lia).
  rewrite (shifted_numerator _ sh Hs).
  assert (Hm' : 2 ^ 55 <= Z.pos p * 2 ^ sh).
  { destruct (Z.le_gt_cases d1 56) as [Hle|Hgt].
    - assert (Hs56 : sh = 56 - d1) by (unfold sh; lia).
      assert (H55 : 2 ^ 55 = 2 ^ (d1 - 1) * 2 ^ sh).
      { rewrite <- Z.pow_add_r by lia. f_equal. lia. }
      pose proof (Z.pow_pos_nonneg 2 sh ltac:(lia) Hs). rewrite H55. nia.
    - assert (Hs0 : sh = 0) by (unfold sh; lia). rewrite Hs0, Z.mul_1_r.
      assert (2 ^ 55 <= 2 ^ (d1 - 1)) by (apply Z.pow_le_mono_r; lia). lia. }
  assert (Hup : Z.pos p < 2 ^ 1000 -> Z.pos p * 2 ^ sh < 2 ^ (Z.max 56 1000 + e')).
  { intros Hp. destruct (Z.le_gt_cases d1 56) as [Hle|Hgt].
    - assert (Hs56 : sh = 56 - d1) by (unfold sh; lia).
      assert (H56 : 2 ^ 56 = 2 ^ d1 * 2 ^ sh).
      { rewrite <- Z.pow_add_r by lia. f_equal. lia. }
      pose proof (Z.pow_pos_nonneg 2 sh ltac:(lia) Hs).
      assert (Z.pos p * 2 ^ sh < 2 ^ 56) by (rewrite H56; nia).
      assert (2 ^ 56 <= 2 ^ (Z.max 56 1000 + e')); [|lia].
      apply Z.pow_le_mono_r; lia.
    - assert (Hs0 : sh = 0) by (unfold sh; lia). rewrite Hs0, Z.mul_1_r.
      replace (Z.max 56 1000 + e') with 1000 by lia. exact Hp. }
  assert (Hbig : 2 ^ 1027 <= Z.pos p -> e' = 0 /\ sh = 0).
  { intros Hp. assert (1028 <= d1) by (apply (Zdigits2_ge (Z.pos p) 1027); lia).
    unfold sh. lia. }
  pose proof (Z.div_eucl_eq (Z.pos p * 2 ^ sh) 5 ltac:(lia)) as Hq.
  pose proof (Z.mod_pos_bound (Z.pos p * 2 ^ sh) 5 ltac:(lia)) as Hr.
  unfold Z.modulo in Hr.
  destruct (Z.div_eucl (Z.pos p * 2 ^ sh) 5) as [q r].
  assert (Hq52 : 2 ^ 52 <= q) by lia.
  pose proof (Zdigits2_ge q 52 ltac:(lia) Hq52) as Hdq.
  destruct (binary_round_aux_normal s q e' (new_location 5 r))
    as (-> & _ & Hb); try lia.
  set (r1 := fst (shr _ _ _)) in *.
  unfold round_normal.
  pose proof (round_nearest_even_bounds (shr_m r1) (loc_of_shr_record r1)) as Hrn.
  set (m2 := round_nearest_even (shr_m r1) (loc_of_shr_record r1)) in *.
  split.
  - intros Hp. specialize (Hup Hp).
    assert (Hdq' : Zdigits2 q <= Z.max 56 1000 + e').
    { apply Zdigits2_le; lia. }
    destruct (m2 <? 2 ^ 53).
    + destruct (Z.leb_spec (e' + (Zdigits2 q - 53)) 971); [|lia].
      exists (Z.to_pos m2), (e' + (Zdigits2 q - 53)).
      split; [reflexivity|]. rewrite Z2Pos.id by lia. lia.
    + destruct (Z.leb_spec (e' + (Zdigits2 q - 53) + 1) 971); [|lia].
      exists 4503599627370496%positive, (e' + (Zdigits2 q - 53) + 1).
      split; [reflexivity|]. lia.
  - intros Hp. destruct (Hbig Hp) as [He0 Hs0].
    rewrite Hs0, Z.mul_1_r in Hq.
    assert (Hq1024 : 2 ^ 1024 <= q).
    { change (2 ^ 1027) with (8 * 2 ^ 1024) in Hp. lia. }
    pose proof (Zdigits2_ge q 1024 ltac:(lia) Hq1024) as Hdq2.
    destruct (m2 <? 2 ^ 53).
    + destruct (Z.leb_spec (e' + (Zdigits2 q - 53)) 971); [lia|reflexivity].
    + destruct (Z.leb_spec (e' + (Zdigits2 q - 53) + 1) 971); [lia|reflexivity].
Qed.

(** [1.0 - q] exceeds [1.0] when [q] is negative with a full mantissa and
    an exponent of at least -55. *)
Lemma fsub_one_negative (mf : positive) (ef : Z) :
  2 ^ 52 <= Z.pos mf -> -55 <= ef ->
  flt f1_0 (fsub f1_0 (S754_finite true mf ef)) = true.
Proof.
  intros Hm He. unfold fsub, SFsub. unfold f1_0 at 2.
  set (ez := Z.min (-52) ef). cbn [cond_Zopp].
  pose proof (shl_align_spec 4503599627370496 (-52) ez ltac:(unfold ez; lia)) as Ha.
  pose proof (shl_align_spec mf ef ez ltac:(unfold ez; lia)) as Hb.
  set (a := fst (shl_align 4503599627370496 (-52) ez)) in *.
  set (b := fst (shl_align mf ef ez)) in *.
  replace (Z.pos a - - Z.pos b) with (Z.pos (a + b)) by lia.
  change (binary_normalize prec emax (Z.pos (a + b)) ez false)
    with (binary_round prec emax false (a + b) ez).
  unfold binary_round.
  assert (Hk : 0 <= -52 - ez <= 3) by (unfold ez; lia).
  assert (Hpk : 0 < 2 ^ (-52 - ez)) by (apply Z.pow_pos_nonneg; lia).
  assert (Hpj : 0 < 2 ^ (ef - ez)) by (apply Z.pow_pos_nonneg; unfold ez; lia).
  assert (HM : Z.pos 4503599627370496 * 2 ^ (-52 - ez) + 2 ^ (-52 - ez) <= Z.pos (a + b)).
  { rewrite Pos2Z.inj_add, Ha, Hb.
    destruct (Z.le_gt_cases (-52) ef) as [Hge|Hlt].
    - replace (-52 - ez) with 0 by (unfold ez; lia). change (2 ^ 0) with 1. nia.
    - replace (ef - ez) with 0 by (unfold ez; lia). change (2 ^ 0) with 1.
      assert (2 ^ (-52 - ez) <= 2 ^ 3) by (apply Z.pow_le_mono_r; lia).
      change (2 ^ 3) with 8 in *. lia. }
  change (Z.pos 4503599627370496) with (2 ^ 52) in HM.
  rewrite <- Z.pow_add_r in HM by lia.
  set (k := -52 - ez) in *.
  assert (HdM : 52 + k + 1 <= Zdigits2 (Z.pos (a + b))).
  { apply Zdigits2_ge; lia. }
  set (M := (a + b)%positive) in *.
  assert (Hfexp : fexp prec emax (Z.pos (digits2_pos M) + ez) - ez = Zdigits2 (Z.pos M) - 53).
  { cbn [Zdigits2] in *. unfold fexp, emin, prec, emax. unfold k in *. lia. }
  assert (Hal : shl_align M ez (fexp prec emax (Z.pos (digits2_pos M) + ez)) = (M, ez)).
  { unfold shl_align. rewrite Hfexp. destruct (Zdigits2 (Z.pos M) - 53) eqn:E; try reflexivity.
    lia. }
  rewrite Hal.
  assert (H53 : 53 <= Zdigits2 (Z.pos M)) by lia.
  assert (Hrange : -1074 <= Zdigits2 (Z.pos M) + ez - 53) by (unfold k in *; lia).
  destruct (binary_round_aux_normal false (Z.pos M) ez loc_Exact ltac:(lia) H53 Hrange)
    as (-> & Hm1 & Hb1).
  apply round_normal_above_one; [assumption|].
  set (n := Zdigits2 (Z.pos M) - 53) in *.
  destruct (Z.eq_dec n k) as [Hnk|Hnk]; [right|left; unfold k in *; lia].
  split; [unfold k in *; lia|].
  pose proof (round_nearest_even_bounds
                (shr_m (fst (shr (shr_record_of_loc (Z.pos M) loc_Exact) ez n)))
                (loc_of_shr_record (fst (shr (shr_record_of_loc (Z.pos M) loc_Exact) ez n))))
    as Hr.
  assert (H : 2 ^ 52 + 1 <= Z.pos M / 2 ^ k).
  { apply Z.div_le_lower_bound; [apply Z.pow_pos_nonneg; lia|].
    rewrite Z.pow_add_r in HM by lia. nia. }
  rewrite <- Hnk in H. lia.
Qed.

Lemma flt_one_positive (d : float) : flt f1_0 d = true -> positive_float d.
Proof.
  destruct d as [s|[]| |[] m e]; intros H; try exact I; discriminate H.
Qed.

Lemma positive_compare (d : float) :
  positive_float d -> float_compare_int d 0 = Some Gt.
Proof.
  destruct d as [s|[]| |[] m e]; intros H; try contradiction; [reflexivity|].
  unfold float_compare_int. destruct (0 <=? e) eqn:He; [|reflexivity].
  apply Z.leb_le in He. pose proof (Z.pow_pos_nonneg 2 e ltac:(lia) He) as Hp.
  destruct (2 ^ e); try lia. reflexivity.
Qed.

(** X15: for a source dated after the current year by less than
    [2^1000] years, the recency score is a float strictly greater than
    [1.0]: line 42 bounds it from below only.  From [2^1027] years on,
    the quotient of line 42 does not fit a float and [OverflowError] is
    raised. *)
Theorem future_source_recency (source_data : pyval) (y : Z) :
  py_get source_data "year" (PInt current_year) = Ret (PInt y) ->
  current_year < y ->
  (y - current_year < 2 ^ 1000 ->
   exists x, recency_score source_data = Ret (PFloat x) /\ flt f1_0 x = true) /\
  (2 ^ 1027 <= y - current_year ->
   recency_score source_data = Raise OverflowError).
Proof.
  intros Hy Hfut. unfold recency_score, years_old. rewrite Hy.
  cbn [bind py_sub arith as_num py_truediv].
  destruct (current_year - y) as [|p|p] eqn:Hyo; try lia.
  assert (Hp : Z.pos p = y - current_year) by lia. rewrite <- Hp.
  unfold int_true_div. cbn [Z.eqb raw_int].
  destruct (SFdiv_by_5_range true p) as [Hsmall Hlarge]. split.
  - intros Hb. destruct (Hsmall Hb) as (mf & ef & -> & Hm & He).
    cbn [bind as_num num_to_float].
    change (int_to_float 1) with (Ret f1_0). cbn [bind].
    pose proof (fsub_one_negative mf ef Hm He) as Hgt.
    unfold py_max, py_gt, py_lt. cbn [as_num bind].
    rewrite (positive_compare _ (flt_one_positive _ Hgt)).
    eexists. split; [reflexivity|exact Hgt].
  - intros Hb. now rewrite (Hlarge Hb).
Qed.

Lemma future_source_recency_witness :
  exists x, recency_score future_source = Ret (PFloat x) /\ flt f1_0 x = true.
Proof.
  destruct (future_source_recency future_source 2040) as [H _];
    [reflexivity | unfold current_year; lia |].
  apply H. unfold current_year. reflexivity.
Defined.

(** *** Lines 116-138 on the retained sources *)

Lemma existsb_filter_length {A : Type} (f : A -> bool) (l : list A) :
  existsb f l = negb (Z.of_nat (List.length (filter f l)) =? 0).
Proof.
  induction l as [|x l IH]; [reflexivity|].
  cbn [existsb filter]. destruct (f x); [|exact IH].
  rewrite length_cons. cbn [orb].
  destruct (Z.eqb_spec (Z.of_nat (S (List.length (filter f l)))) 0); [lia|reflexivity].
Qed.

Lemma tally_supporting (claim : string) (sources : list pyval) (contents : list string)
  (counts : Z * Z) :
  Forall2 (fun src c => py_get src "content" (PStr "") = Ret (PStr c)) sources contents ->
  tally (PStr claim) counts sources
  = Ret (fst counts + Z.of_nat (List.length (filter (supports claim) contents)),
         snd counts).
Proof.
  intros H. revert counts.
  induction H as [|src c sources contents Hc _ IH]; intros counts.
  - cbn. rewrite Z.add_0_r. now destruct counts.
  - cbn [tally]. unfold tally_step. rewrite Hc. cbn [bind py_lower].
    cbn [filter]. unfold supports at 1.
    destruct (str_in (lower claim) (lower c)) eqn:Hs.
    + cbn [bind]. rewrite IH. cbn [fst snd]. rewrite length_cons.
      f_equal. f_equal. lia.
    + destruct (str_in ("not " ++ lower claim) (lower c)) eqn:Hn.
      * apply str_in_app in Hn. congruence.
      * cbn [bind]. apply IH.
Qed.

(** X16: lines 116-138, on a claim and retained sources whose contents
    are ASCII texts: the verdict is ['supported'] as soon as one content
    contains the claim, case-insensitively, and ['no_consensus']
    otherwise; sources that deny the claim do not lower it. *)
Theorem consensus_of_any_support
  (claim : string) (sources : list pyval) (contents : list string) :
  isascii claim = true ->
  forallb isascii contents = true ->
  Forall2 (fun src c => py_get src "content" (PStr "") = Ret (PStr c)) sources contents ->
  consensus_of (PStr claim) sources
  = Ret (PStr (if existsb (supports claim) contents
               then "supported" else "no_consensus")).
Proof.
  intros _ _ H. unfold consensus_of.
  destruct sources as [|src rest].
  - inversion H. reflexivity.
  - rewrite (tally_supporting claim _ contents (0, 0) H). cbn [bind fst snd].
    rewrite Z.add_0_l, verdict_unanimous by lia.
    rewrite existsb_filter_length.
    now destruct (Z.of_nat (List.length (filter (supports claim) contents)) =? 0).
Qed.

Lemma consensus_of_any_support_witness :
  consensus_of (PStr "prices rise") [weak_source; denying_source; good_source]
  = Ret (PStr "supported").
Proof.
  apply (consensus_of_any_support "prices rise"
           [weak_source; denying_source; good_source]
           ["Prices rise"; "Experts say: not prices rise"; "Prices rise"]);
    [reflexivity | reflexivity | repeat constructor].
Defined.
